(** * Visit ledger and payment-eligibility gate of the hospital backend

    A shallow embedding of [models/Visit.js], [middleware/paymentEligibility.js],
    the visit routes and [controllers/labTestController.js].

    JavaScript numbers are IEEE-754 binary64 values, so [Number] is Rocq's
    primitive [float] and every arithmetic operation below is the kernel's
    binary64 operation.  Mongoose documents are records; a method that mutates
    [this] and returns it is a function from the document to the updated
    document; a route handler is a function from the database and the request to
    the response and the database it leaves behind. *)

From Stdlib Require Import List String Ascii Bool Arith ZArith Lia Floats DecimalString.
From Stdlib Require Import Decimal DecimalFacts DecimalNat.
Import ListNotations.
Local Open Scope string_scope.

Set Implicit Arguments.

(** ** JavaScript values as the code uses them *)

Definition Number := float.
Definition ObjectId := string.

(** The view of a JavaScript [Date] the code relies on. *)
Record Date := mkDate { getTime : Z; getFullYear : nat }.

Module JS.

(** [xs.reduce(f, init)]: left to right, accumulator first. *)
Definition reduce {A B : Type} (xs : list A) (f : B -> A -> B) (init : B) : B :=
  fold_left f xs init.

(** Truthiness of a possibly absent string: [undefined] and [''] are falsy. *)
Definition truthy_string (s : option string) : bool :=
  match s with
  | Some s => negb (s =? "")
  | None => false
  end.

(** Truthiness of a possibly absent number: [undefined], [0], [-0] and [NaN] are falsy. *)
Definition truthy_number (x : option Number) : bool :=
  match x with
  | Some x => negb (PrimFloat.eqb x 0%float || PrimFloat.is_nan x)
  | None => false
  end.

(** Truthiness of a possibly absent boolean. *)
Definition truthy_bool (b : option bool) : bool :=
  match b with
  | Some b => b
  | None => false
  end.

(** [a || b] on possibly absent strings, with a string default. *)
Definition or_string (a : option string) (b : string) : string :=
  match a with
  | Some s => if s =? "" then b else s
  | None => b
  end.

(** [n.toString()] for a non-negative integer. *)
Definition toString (n : nat) : string := NilEmpty.string_of_uint (Nat.to_uint n).

(** [s.slice(-k)]: the last [k] characters (the whole string when shorter). *)
Definition slice_last (k : nat) (s : string) : string :=
  substring (String.length s - k) k s.

Fixpoint repeat_char (c : ascii) (n : nat) : string :=
  match n with
  | O => EmptyString
  | S n => String c (repeat_char c n)
  end.

(** [s.padStart(k, c)] for a one-character pad. *)
Definition padStart (k : nat) (c : ascii) (s : string) : string :=
  repeat_char c (k - String.length s) ++ s.

End JS.

(** ** Sub-schemas of [models/Visit.js] *)

Module VitalSigns.
Record t := mk {
  temperature : option Number;
  bloodPressure : option string;
  heartRate : option Number;
  respiratoryRate : option Number;
  oxygenSaturation : option Number
}.
End VitalSigns.

Module Diagnosis.
Record t := mk {
  condition : string;
  patient : ObjectId;
  diagnosedBy : ObjectId;
  notes : option string;
  icd10Code : option string;
  isFinal : bool
}.
End Diagnosis.

Module LabOrder.
Record t := mk {
  _id : ObjectId;
  testName : string;
  patient : ObjectId;
  orderedBy : ObjectId;
  status : string;
  results : option string;
  notes : option string;
  price : Number;
  paymentStatus : string
}.
End LabOrder.

Module ServiceCharge.
Record t := mk {
  serviceType : string;
  serviceName : string;
  serviceId : option ObjectId;
  price : Number;
  quantity : Number;
  totalPrice : Number;
  isCoveredByInsurance : bool;
  insuranceCoverage : Number;
  patientResponsibility : Number;
  paymentStatus : string;
  paidAmount : Number;
  addedBy : ObjectId;
  notes : option string
}.
End ServiceCharge.

Module PaymentRecord.
Record t := mk {
  amount : Number;
  paymentMethod : string;
  paymentType : string;
  receiptNumber : option string;
  transactionId : option string;
  receivedBy : ObjectId;
  notes : option string;
  paymentDate : Date
}.
End PaymentRecord.

(** The argument object of [addServiceCharge]; the three fields that the
    destructuring gives a default are optional. *)
Module ServiceData.
Record t := mk {
  serviceType : string;
  serviceName : string;
  serviceId : option ObjectId;
  price : Number;
  quantity : option Number;
  hasInsurance : option bool;
  insuranceCoveragePercentage : option Number;
  notes : option string
}.
End ServiceData.

(** The argument object of [recordPayment]. *)
Module PaymentData.
Record t := mk {
  amount : Number;
  paymentMethod : string;
  paymentType : string;
  receiptNumber : option string;
  transactionId : option string;
  notes : option string
}.
End PaymentData.

(** ** The Visit document *)

Module Visit.

Record t := mk {
  _id : ObjectId;
  visitId : option string;
  patient : ObjectId;
  doctor : ObjectId;
  visitDate : Date;
  status : string;
  type : string;
  reason : string;
  symptoms : list string;
  startedBy : ObjectId;
  endedBy : option ObjectId;
  room : option string;
  notes : option string;
  duration : option Number;
  vitalSigns : option VitalSigns.t;
  diagnosis : list Diagnosis.t;
  labOrders : list LabOrder.t;
  prescriptions : option ObjectId;
  serviceCharges : list ServiceCharge.t;
  paymentRecords : list PaymentRecord.t;
  totalCharges : Number;
  insuranceCoverage : Number;
  patientResponsibility : Number;
  totalPaid : Number;
  outstandingBalance : Number;
  consultationFeePaid : bool;
  consultationFeeAmount : Number;
  allServicesPaid : bool;
  isActive : bool
}.

(** Assignments to one path of the document. *)

Definition set_visitId (x : option string) (v : t) : t :=
  mk (_id v) x (patient v) (doctor v) (visitDate v) (status v) (type v)
     (reason v) (symptoms v) (startedBy v) (endedBy v) (room v) (notes v)
     (duration v) (vitalSigns v) (diagnosis v) (labOrders v) (prescriptions v)
     (serviceCharges v) (paymentRecords v) (totalCharges v)
     (insuranceCoverage v) (patientResponsibility v) (totalPaid v)
     (outstandingBalance v) (consultationFeePaid v) (consultationFeeAmount v)
     (allServicesPaid v) (isActive v).

Definition set_status (x : string) (v : t) : t :=
  mk (_id v) (visitId v) (patient v) (doctor v) (visitDate v) x (type v)
     (reason v) (symptoms v) (startedBy v) (endedBy v) (room v) (notes v)
     (duration v) (vitalSigns v) (diagnosis v) (labOrders v) (prescriptions v)
     (serviceCharges v) (paymentRecords v) (totalCharges v)
     (insuranceCoverage v) (patientResponsibility v) (totalPaid v)
     (outstandingBalance v) (consultationFeePaid v) (consultationFeeAmount v)
     (allServicesPaid v) (isActive v).

Definition set_labOrders (x : list LabOrder.t) (v : t) : t :=
  mk (_id v) (visitId v) (patient v) (doctor v) (visitDate v) (status v)
     (type v) (reason v) (symptoms v) (startedBy v) (endedBy v) (room v)
     (notes v) (duration v) (vitalSigns v) (diagnosis v) x (prescriptions v)
     (serviceCharges v) (paymentRecords v) (totalCharges v)
     (insuranceCoverage v) (patientResponsibility v) (totalPaid v)
     (outstandingBalance v) (consultationFeePaid v) (consultationFeeAmount v)
     (allServicesPaid v) (isActive v).

Definition set_serviceCharges (x : list ServiceCharge.t) (v : t) : t :=
  mk (_id v) (visitId v) (patient v) (doctor v) (visitDate v) (status v)
     (type v) (reason v) (symptoms v) (startedBy v) (endedBy v) (room v)
     (notes v) (duration v) (vitalSigns v) (diagnosis v) (labOrders v)
     (prescriptions v) x (paymentRecords v) (totalCharges v)
     (insuranceCoverage v) (patientResponsibility v) (totalPaid v)
     (outstandingBalance v) (consultationFeePaid v) (consultationFeeAmount v)
     (allServicesPaid v) (isActive v).

Definition set_paymentRecords (x : list PaymentRecord.t) (v : t) : t :=
  mk (_id v) (visitId v) (patient v) (doctor v) (visitDate v) (status v)
     (type v) (reason v) (symptoms v) (startedBy v) (endedBy v) (room v)
     (notes v) (duration v) (vitalSigns v) (diagnosis v) (labOrders v)
     (prescriptions v) (serviceCharges v) x (totalCharges v)
     (insuranceCoverage v) (patientResponsibility v) (totalPaid v)
     (outstandingBalance v) (consultationFeePaid v) (consultationFeeAmount v)
     (allServicesPaid v) (isActive v).

Definition set_totalCharges (x : Number) (v : t) : t :=
  mk (_id v) (visitId v) (patient v) (doctor v) (visitDate v) (status v)
     (type v) (reason v) (symptoms v) (startedBy v) (endedBy v) (room v)
     (notes v) (duration v) (vitalSigns v) (diagnosis v) (labOrders v)
     (prescriptions v) (serviceCharges v) (paymentRecords v) x
     (insuranceCoverage v) (patientResponsibility v) (totalPaid v)
     (outstandingBalance v) (consultationFeePaid v) (consultationFeeAmount v)
     (allServicesPaid v) (isActive v).

Definition set_insuranceCoverage (x : Number) (v : t) : t :=
  mk (_id v) (visitId v) (patient v) (doctor v) (visitDate v) (status v)
     (type v) (reason v) (symptoms v) (startedBy v) (endedBy v) (room v)
     (notes v) (duration v) (vitalSigns v) (diagnosis v) (labOrders v)
     (prescriptions v) (serviceCharges v) (paymentRecords v) (totalCharges v)
     x (patientResponsibility v) (totalPaid v)
     (outstandingBalance v) (consultationFeePaid v) (consultationFeeAmount v)
     (allServicesPaid v) (isActive v).

Definition set_patientResponsibility (x : Number) (v : t) : t :=
  mk (_id v) (visitId v) (patient v) (doctor v) (visitDate v) (status v)
     (type v) (reason v) (symptoms v) (startedBy v) (endedBy v) (room v)
     (notes v) (duration v) (vitalSigns v) (diagnosis v) (labOrders v)
     (prescriptions v) (serviceCharges v) (paymentRecords v) (totalCharges v)
     (insuranceCoverage v) x (totalPaid v)
     (outstandingBalance v) (consultationFeePaid v) (consultationFeeAmount v)
     (allServicesPaid v) (isActive v).

Definition set_totalPaid (x : Number) (v : t) : t :=
  mk (_id v) (visitId v) (patient v) (doctor v) (visitDate v) (status v)
     (type v) (reason v) (symptoms v) (startedBy v) (endedBy v) (room v)
     (notes v) (duration v) (vitalSigns v) (diagnosis v) (labOrders v)
     (prescriptions v) (serviceCharges v) (paymentRecords v) (totalCharges v)
     (insuranceCoverage v) (patientResponsibility v) x
     (outstandingBalance v) (consultationFeePaid v) (consultationFeeAmount v)
     (allServicesPaid v) (isActive v).

Definition set_outstandingBalance (x : Number) (v : t) : t :=
  mk (_id v) (visitId v) (patient v) (doctor v) (visitDate v) (status v)
     (type v) (reason v) (symptoms v) (startedBy v) (endedBy v) (room v)
     (notes v) (duration v) (vitalSigns v) (diagnosis v) (labOrders v)
     (prescriptions v) (serviceCharges v) (paymentRecords v) (totalCharges v)
     (insuranceCoverage v) (patientResponsibility v) (totalPaid v)
     x (consultationFeePaid v) (consultationFeeAmount v)
     (allServicesPaid v) (isActive v).

Definition set_consultationFeePaid (x : bool) (v : t) : t :=
  mk (_id v) (visitId v) (patient v) (doctor v) (visitDate v) (status v)
     (type v) (reason v) (symptoms v) (startedBy v) (endedBy v) (room v)
     (notes v) (duration v) (vitalSigns v) (diagnosis v) (labOrders v)
     (prescriptions v) (serviceCharges v) (paymentRecords v) (totalCharges v)
     (insuranceCoverage v) (patientResponsibility v) (totalPaid v)
     (outstandingBalance v) x (consultationFeeAmount v)
     (allServicesPaid v) (isActive v).

Definition set_consultationFeeAmount (x : Number) (v : t) : t :=
  mk (_id v) (visitId v) (patient v) (doctor v) (visitDate v) (status v)
     (type v) (reason v) (symptoms v) (startedBy v) (endedBy v) (room v)
     (notes v) (duration v) (vitalSigns v) (diagnosis v) (labOrders v)
     (prescriptions v) (serviceCharges v) (paymentRecords v) (totalCharges v)
     (insuranceCoverage v) (patientResponsibility v) (totalPaid v)
     (outstandingBalance v) (consultationFeePaid v) x
     (allServicesPaid v) (isActive v).

Definition set_allServicesPaid (x : bool) (v : t) : t :=
  mk (_id v) (visitId v) (patient v) (doctor v) (visitDate v) (status v)
     (type v) (reason v) (symptoms v) (startedBy v) (endedBy v) (room v)
     (notes v) (duration v) (vitalSigns v) (diagnosis v) (labOrders v)
     (prescriptions v) (serviceCharges v) (paymentRecords v) (totalCharges v)
     (insuranceCoverage v) (patientResponsibility v) (totalPaid v)
     (outstandingBalance v) (consultationFeePaid v) (consultationFeeAmount v)
     x (isActive v).

Definition set_isActive (x : bool) (v : t) : t :=
  mk (_id v) (visitId v) (patient v) (doctor v) (visitDate v) (status v)
     (type v) (reason v) (symptoms v) (startedBy v) (endedBy v) (room v)
     (notes v) (duration v) (vitalSigns v) (diagnosis v) (labOrders v)
     (prescriptions v) (serviceCharges v) (paymentRecords v) (totalCharges v)
     (insuranceCoverage v) (patientResponsibility v) (totalPaid v)
     (outstandingBalance v) (consultationFeePaid v) (consultationFeeAmount v)
     (allServicesPaid v) x.

(** [visitSchema.methods.calculateFinancials]: six assignments in the order
    of the source; the last two read the fields assigned just before. *)
Definition calculateFinancials (this : t) : t :=
  let this := set_totalCharges
    (JS.reduce (serviceCharges this)
       (fun sum charge => (sum + ServiceCharge.totalPrice charge)%float) 0%float) this in
  let this := set_insuranceCoverage
    (JS.reduce (serviceCharges this)
       (fun sum charge => (sum + ServiceCharge.insuranceCoverage charge)%float) 0%float) this in
  let this := set_patientResponsibility
    (JS.reduce (serviceCharges this)
       (fun sum charge => (sum + ServiceCharge.patientResponsibility charge)%float) 0%float) this in
  let this := set_totalPaid
    (JS.reduce (paymentRecords this)
       (fun sum payment => (sum + PaymentRecord.amount payment)%float) 0%float) this in
  let this := set_outstandingBalance
    (patientResponsibility this - totalPaid this)%float this in
  let this := set_allServicesPaid
    (PrimFloat.leb (outstandingBalance this) 0%float) this in
  this.

(** [visitSchema.methods.addServiceCharge].  The sub-document pushed on
    [serviceCharges] takes [paidAmount] from the schema default. *)
Definition addServiceCharge (serviceData : ServiceData.t) (user : ObjectId) (this : t) : t :=
  let serviceType := ServiceData.serviceType serviceData in
  let serviceName := ServiceData.serviceName serviceData in
  let serviceId := ServiceData.serviceId serviceData in
  let price := ServiceData.price serviceData in
  let quantity :=
    match ServiceData.quantity serviceData with Some q => q | None => 1%float end in
  let hasInsurance :=
    match ServiceData.hasInsurance serviceData with Some h => h | None => false end in
  let insuranceCoveragePercentage :=
    match ServiceData.insuranceCoveragePercentage serviceData with
    | Some p => p
    | None => 0%float
    end in
  let notes := ServiceData.notes serviceData in
  let totalPrice := (price * quantity)%float in
  let insuranceCoverage :=
    if hasInsurance then (totalPrice * insuranceCoveragePercentage / 100)%float
    else 0%float in
  let patientResponsibility := (totalPrice - insuranceCoverage)%float in
  let this := set_serviceCharges
    (serviceCharges this ++
      [ServiceCharge.mk serviceType serviceName serviceId price quantity
         totalPrice hasInsurance insuranceCoverage patientResponsibility
         (if hasInsurance then "insurance_claimed" else "pending")
         0%float user notes]) this in
  calculateFinancials this.

(** [visitSchema.methods.recordPayment].  [now] is the clock read by the
    schema default of [paymentDate] when the sub-document is pushed. *)
Definition recordPayment (now : Date) (paymentData : PaymentData.t) (user : ObjectId)
    (this : t) : t :=
  let amount := PaymentData.amount paymentData in
  let paymentMethod := PaymentData.paymentMethod paymentData in
  let paymentType := PaymentData.paymentType paymentData in
  let receiptNumber := PaymentData.receiptNumber paymentData in
  let transactionId := PaymentData.transactionId paymentData in
  let notes := PaymentData.notes paymentData in
  let this := set_paymentRecords
    (paymentRecords this ++
      [PaymentRecord.mk amount paymentMethod paymentType receiptNumber
         transactionId user notes now]) this in
  let this :=
    if paymentType =? "consultation_fee"
    then set_consultationFeeAmount amount (set_consultationFeePaid true this)
    else this in
  calculateFinancials this.

(** [visitSchema.methods.getPaymentSummary] *)
Record PaymentSummary := mkSummary {
  summary_visitId : option string;
  summary_totalCharges : Number;
  summary_insuranceCoverage : Number;
  summary_patientResponsibility : Number;
  summary_totalPaid : Number;
  summary_outstandingBalance : Number;
  summary_consultationFeePaid : bool;
  summary_allServicesPaid : bool;
  summary_serviceCharges : list ServiceCharge.t;
  summary_paymentRecords : list PaymentRecord.t
}.

Definition getPaymentSummary (this : t) : PaymentSummary :=
  mkSummary (visitId this) (totalCharges this) (insuranceCoverage this)
    (patientResponsibility this) (totalPaid this) (outstandingBalance this)
    (consultationFeePaid this) (allServicesPaid this) (serviceCharges this)
    (paymentRecords this).

End Visit.

(** ** Collaborating models *)

(** Modelled from the spec: [models/Patient.js] is not among the sources; the
    patient lookup exposes [insurance.provider], a string or absent. *)
Module Patient.
Record insurance_t := mkInsurance { provider : option string }.
Record t := mk { _id : ObjectId; insurance : option insurance_t }.

(** [!!(patient.insurance?.provider)] *)
Definition hasInsurance (patient : t) : bool :=
  JS.truthy_string
    (match insurance patient with
     | Some i => provider i
     | None => None
     end).
End Patient.

(** [models/LabTest.js] *)
Module LabTest.
Record t := mk {
  _id : ObjectId;
  testName : string;
  patient : ObjectId;
  orderedBy : ObjectId;
  status : string;
  results : option string;
  category : option string;
  code : option string
}.
End LabTest.

(** What [Service.findOne] did for a price lookup: it threw, it resolved to
    [null], or it resolved to a service with a price. *)
Inductive ServiceLookup :=
| LookupThrows
| LookupNull
| LookupFound (price : Number).

(** The collections of the database. *)
Record Db := mkDb {
  visits : list Visit.t;
  patients : list Patient.t;
  labTests : list LabTest.t
}.

(** ** Requests and responses *)

Record ChargeInfo := mkChargeInfo {
  chargeInfo_price : Number;
  chargeInfo_hasInsurance : option bool;
  chargeInfo_patientResponsibility : Number
}.

(** The JSON bodies the handlers send, one constructor per shape. *)
Inductive ResBody :=
| Error (message : string)
| PaymentRequired (message : string) (requiresPayment : bool) (visitId : option string)
| SuccessVisit (data : Visit.t) (message : string)
| SuccessSummary (message : string) (data : Visit.PaymentSummary)
| SuccessMessage (message : string)
| SuccessLabOrder (data : option LabOrder.t) (chargeInfo : option ChargeInfo)
| LabTestCreated (data : LabTest.t) (chargeInfo : option ChargeInfo)
| LabTestFailed (error : string).

Record Response := mkResponse { httpStatus : nat; json : ResBody }.

(** The places of a request body where a visit reference may sit
    ([req.body.visit] and [req.body.visitId]). *)
Class VisitRefs (B : Type) := {
  body_visit : B -> option ObjectId;
  body_visitId : B -> option ObjectId
}.

Record Request (B : Type) := mkRequest {
  params_id : option ObjectId;
  body : B;
  user_id : ObjectId;
  req_visit : option Visit.t;
  req_hasInsurance : option bool;
  req_patientId : option ObjectId
}.

Inductive Middleware (B : Type) :=
| Respond (res : Response)
| Next (req : Request B).

Arguments Respond {B} res.
Arguments Next {B} req.

Module Body.
Record CreateVisit := mkCreateVisit {
  patientId : ObjectId;
  doctorId : ObjectId;
  visitDate : option Date;
  reason : string;
  status : option string;
  type : string
}.

Record LabOrder := mkLabOrder {
  labOrder_visit : option ObjectId;
  labOrder_visitId : option ObjectId;
  testName : string;
  notes : option string
}.

Record Payment := mkPayment {
  amount : option Number;
  paymentMethod : option string;
  paymentType : option string;
  receiptNumber : option string;
  transactionId : option string;
  payment_notes : option string
}.

Record PaymentStatus := mkPaymentStatus { paymentConfirmed : option bool }.

Record OrderData := mkOrderData {
  orderData_testName : string;
  orderData_notes : option string
}.

Record LabTest := mkLabTest {
  orderData : OrderData;
  patient : ObjectId;
  visit : option ObjectId;
  labTest_visitId : option ObjectId
}.
End Body.

#[export] Instance LabOrder_refs : VisitRefs Body.LabOrder :=
  {| body_visit := Body.labOrder_visit; body_visitId := Body.labOrder_visitId |}.

#[export] Instance LabTest_refs : VisitRefs Body.LabTest :=
  {| body_visit := Body.visit; body_visitId := Body.labTest_visitId |}.

(** ** Persistence: the Mongoose calls the handlers make *)

Section Persistence.

(** Schema validation as Mongoose runs it at [save]: [None] when the document
    passes, the error message otherwise. *)
Variable validate : Visit.t -> option string.

Definition Visit_findById (db : Db) (id : ObjectId) : option Visit.t :=
  find (fun v => Visit._id v =? id) (visits db).

(** [Visit.findOne({ patient: patientId, isActive: true })] *)
Definition Visit_findOne_active (db : Db) (patientId : ObjectId) : option Visit.t :=
  find (fun v => (Visit.patient v =? patientId) && Visit.isActive v) (visits db).

Definition Visit_countDocuments (db : Db) : nat := List.length (visits db).

Definition Patient_findById (db : Db) (id : ObjectId) : option Patient.t :=
  find (fun p => Patient._id p =? id) (patients db).

(** The pre-save hook of [visitSchema]: a new document without a visit id
    gets [V], the last two digits of the year and the padded count. *)
Definition generateVisitId (now : Date) (db : Db) (isNew : bool) (this : Visit.t) : Visit.t :=
  if isNew && negb (JS.truthy_string (Visit.visitId this)) then
    let year := JS.slice_last 2 (JS.toString (getFullYear now)) in
    let count := Visit_countDocuments db in
    Visit.set_visitId
      (Some ("V" ++ year ++ JS.padStart 5 "0"%char (JS.toString (count + 1)))) this
  else this.

Definition set_visits (vs : list Visit.t) (db : Db) : Db :=
  mkDb vs (patients db) (labTests db).

(** The unique index on [visitId]: an insert is refused when another
    document holds the same visit id. *)
Definition visitId_taken (db : Db) (this : Visit.t) : bool :=
  match Visit.visitId this with
  | Some s => existsb (fun v => match Visit.visitId v with
                                | Some s' => s' =? s
                                | None => false
                                end) (visits db)
  | None => false
  end.

(** [doc.save()]: validation, then the pre-save hook, then the write: an
    insert for a new document, a replacement of the stored one otherwise.
    The left case is the error the promise rejects with. *)
Definition save (now : Date) (isNew : bool) (doc : Visit.t) (db : Db)
    : string + (Visit.t * Db) :=
  match validate doc with
  | Some err => inl err
  | None =>
      let doc := generateVisitId now db isNew doc in
      if isNew then
        if visitId_taken db doc then inl "E11000 duplicate key error"
        else inr (doc, set_visits (visits db ++ [doc]) db)
      else
        inr (doc, set_visits
               (map (fun v => if Visit._id v =? Visit._id doc then doc else v)
                  (visits db)) db)
  end.

(** ** [middleware/paymentEligibility.js] *)

(** The visit id as [checkPaymentEligibility] extracts it: [req.body.visit],
    else [req.body.visitId], else [req.params.id]; [None] is the [visitId]
    left [undefined]. *)
Definition eligibility_visitId {B : Type} `{VisitRefs B} (req : Request B)
    : option ObjectId :=
  if JS.truthy_string (body_visit (body req)) then body_visit (body req)
  else if JS.truthy_string (body_visitId (body req)) then body_visitId (body req)
  else if JS.truthy_string (params_id req) then params_id req
  else None.

Definition checkPaymentEligibility {B : Type} `{VisitRefs B} (db : Db) (req : Request B)
    : Middleware B :=
  let visitId := eligibility_visitId req in
  match visitId with
  | None => Respond (mkResponse 400 (Error "Visit ID is required"))
  | Some visitId =>
      match Visit_findById db visitId with
      | None => Respond (mkResponse 404 (Error "Visit not found"))
      | Some visit =>
          (* populate('patient'): a dangling reference leaves [null], and
             reading [insurance] from it throws into the catch block *)
          match Patient_findById db (Visit.patient visit) with
          | None =>
              Respond (mkResponse 500 (Error "Error checking payment eligibility"))
          | Some patient =>
              let hasInsurance := Patient.hasInsurance patient in
              if negb hasInsurance && (Visit.status visit =? "Pending Payment") then
                Respond (mkResponse 403
                  (PaymentRequired
                     "Payment required before ordering services. Please complete payment at the reception."
                     true (Visit.visitId visit)))
              else
                Next (mkRequest (params_id req) (body req) (user_id req)
                        (Some visit) (Some hasInsurance) (Some (Patient._id patient)))
          end
      end
  end.

Definition checkVisitActive {B : Type} `{VisitRefs B} (db : Db) (req : Request B)
    : Middleware B :=
  let visitId :=
    if JS.truthy_string (params_id req) then params_id req
    else if JS.truthy_string (body_visit (body req)) then body_visit (body req)
    else body_visitId (body req) in
  if negb (JS.truthy_string visitId) then
    Respond (mkResponse 400 (Error "Visit ID is required"))
  else
    match visitId with
    | None => Respond (mkResponse 400 (Error "Visit ID is required"))
    | Some visitId =>
        match Visit_findById db visitId with
        | None => Respond (mkResponse 404 (Error "Visit not found"))
        | Some visit =>
            if negb (Visit.isActive visit) then
              Respond (mkResponse 400 (Error "Cannot modify an inactive visit"))
            else
              Next (mkRequest (params_id req) (body req) (user_id req)
                      (Some visit) (req_hasInsurance req) (req_patientId req))
        end
    end.

End Persistence.

(** ** The visit routes and the lab-test controller *)

Section Routes.

Variable validate : Visit.t -> option string.

(** [arr[arr.length - 1]] *)
Definition last_item {A : Type} (arr : list A) : option A :=
  nth_error arr (List.length arr - 1).

(** The message of the [TypeError] raised by reading a property of [undefined]. *)
Definition TypeError_undefined : string := "Cannot read properties of undefined".

(** [new Visit({ patient, doctor, visitDate, reason, status, type, startedBy })]:
    the other paths take their schema defaults. *)
Definition new_Visit (_id : ObjectId) (now : Date) (patient doctor : ObjectId)
    (visitDate : option Date) (reason status type : string) (startedBy : ObjectId)
    : Visit.t :=
  Visit.mk _id None patient doctor
    (match visitDate with Some d => d | None => now end)
    status type reason [] startedBy None None None None None [] [] None [] []
    0%float 0%float 0%float 0%float 0%float false 0%float false true.

(** [POST /api/visits].  [newId] is the [_id] Mongoose gives the new document. *)
Definition createVisit (now : Date) (newId : ObjectId) (db : Db)
    (body : Body.CreateVisit) (user : ObjectId) : Response * Db :=
  let patientId := Body.patientId body in
  match Visit_findOne_active db patientId with
  | Some activeVisit =>
      (mkResponse 400
         (Error ("Patient already has an active visit (Visit ID: "
                 ++ JS.or_string (Visit.visitId activeVisit) (Visit._id activeVisit)
                 ++ "). Please end the current visit before starting a new one.")),
       db)
  | None =>
      match Patient_findById db patientId with
      | None => (mkResponse 404 (Error "Patient not found"), db)
      | Some patient =>
          let hasInsurance := Patient.hasInsurance patient in
          let visitStatus := JS.or_string (Body.status body) "Pending Payment" in
          let visitStatus := if hasInsurance then "In Queue" else visitStatus in
          let newVisit :=
            new_Visit newId now patientId (Body.doctorId body) (Body.visitDate body)
              (Body.reason body) visitStatus (Body.type body) user in
          match save validate now true newVisit db with
          | inl message => (mkResponse 400 (Error message), db)
          | inr (visit, db') =>
              (mkResponse 201
                 (SuccessVisit visit
                    ("Visit created successfully"
                     ++ (if hasInsurance
                         then " and moved to In Queue (insurance coverage)"
                         else ". Payment is required before services can be ordered."))),
               db')
          end
      end
  end.

(** The handler of [POST /api/visits/:id/lab-orders], after its middleware.
    [lookup] is what the price lookup did and [newId] the [_id] of the
    pushed lab order. *)
Definition addLabOrder (now : Date) (newId : ObjectId) (lookup : ServiceLookup) (db : Db)
    (req : Request Body.LabOrder) : Response * Db :=
  match req_visit req with
  | None => (mkResponse 400 (Error TypeError_undefined), db)
  | Some visit =>
      let hasInsurance := req_hasInsurance req in
      let testName := Body.testName (body req) in
      let notes := Body.notes (body req) in
      let servicePrice :=
        match lookup with
        | LookupFound price => price
        | LookupNull => 0%float
        | LookupThrows => 0%float
        end in
      let newLabOrder :=
        LabOrder.mk newId testName (Visit.patient visit) (user_id req) "Pending" None
          notes servicePrice
          (if JS.truthy_bool hasInsurance then "insurance_claimed" else "pending") in
      let visit := Visit.set_labOrders (Visit.labOrders visit ++ [newLabOrder]) visit in
      let visit :=
        if PrimFloat.ltb 0%float servicePrice then
          let insuranceCoveragePercentage :=
            if JS.truthy_bool hasInsurance then 80%float else 0%float in
          Visit.addServiceCharge
            (ServiceData.mk "lab_test" testName
               (option_map LabOrder._id (last_item (Visit.labOrders visit)))
               servicePrice (Some 1%float) hasInsurance
               (Some insuranceCoveragePercentage) notes)
            (user_id req) visit
        else visit in
      match save validate now false visit db with
      | inl message => (mkResponse 400 (Error message), db)
      | inr (visit, db') =>
          let addedOrder := last_item (Visit.labOrders visit) in
          (mkResponse 201
             (SuccessLabOrder addedOrder
                (if PrimFloat.ltb 0%float servicePrice then
                   Some (mkChargeInfo servicePrice hasInsurance
                           (if JS.truthy_bool hasInsurance
                            then (servicePrice * 0x1.999999999999ap-3)%float
                            else servicePrice))
                 else None)),
           db')
      end
  end.

(** [POST /api/visits/:id/lab-orders]: the two gates, then the handler. *)
Definition labOrdersRoute (now : Date) (newId : ObjectId) (lookup : ServiceLookup)
    (db : Db) (req : Request Body.LabOrder) : Response * Db :=
  match checkPaymentEligibility db req with
  | Respond res => (res, db)
  | Next req =>
      match checkVisitActive db req with
      | Respond res => (res, db)
      | Next req => addLabOrder now newId lookup db req
      end
  end.

Definition set_labTests (ts : list LabTest.t) (db : Db) : Db :=
  mkDb (visits db) (patients db) ts.

(** [createLabTest] of [controllers/labTestController.js]; [req.visit] and
    [req.hasInsurance] are what the middleware before it attached, if any. *)
Definition createLabTest (now : Date) (newId : ObjectId) (lookup : ServiceLookup)
    (db : Db) (req : Request Body.LabTest) : Response * Db :=
  let orderData := Body.orderData (body req) in
  let patient := Body.patient (body req) in
  let visit := req_visit req in
  let hasInsurance := req_hasInsurance req in
  let servicePrice :=
    match lookup with
    | LookupFound price => price
    | LookupNull => 0%float
    | LookupThrows => 0%float
    end in
  let labTest :=
    LabTest.mk newId (Body.orderData_testName orderData) patient (user_id req)
      "Pending" None None None in
  let db := set_labTests (labTests db ++ [labTest]) db in
  let chargeInfo :=
    if PrimFloat.ltb 0%float servicePrice then
      Some (mkChargeInfo servicePrice hasInsurance
              (if JS.truthy_bool hasInsurance
               then (servicePrice * 0x1.999999999999ap-3)%float
               else servicePrice))
    else None in
  match visit with
  | Some visit =>
      if PrimFloat.ltb 0%float servicePrice then
        let insuranceCoveragePercentage :=
          if JS.truthy_bool hasInsurance then 80%float else 0%float in
        let visit :=
          Visit.addServiceCharge
            (ServiceData.mk "lab_test" (Body.orderData_testName orderData)
               (Some (LabTest._id labTest)) servicePrice (Some 1%float) hasInsurance
               (Some insuranceCoveragePercentage) (Body.orderData_notes orderData))
            (user_id req) visit in
        match save validate now false visit db with
        | inl message => (mkResponse 400 (LabTestFailed message), db)
        | inr (_, db') => (mkResponse 201 (LabTestCreated labTest chargeInfo), db')
        end
      else (mkResponse 201 (LabTestCreated labTest chargeInfo), db)
  | None => (mkResponse 201 (LabTestCreated labTest chargeInfo), db)
  end.

(** [POST /api/visits/:id/payments] *)
Definition recordPaymentRoute (now : Date) (db : Db) (id : ObjectId)
    (body : Body.Payment) (user : ObjectId) : Response * Db :=
  match Visit_findById db id with
  | None => (mkResponse 404 (Error "Visit not found"), db)
  | Some visit =>
      let required :=
        mkResponse 400 (Error "Amount, payment method, and payment type are required") in
      if negb (JS.truthy_number (Body.amount body))
         || negb (JS.truthy_string (Body.paymentMethod body))
         || negb (JS.truthy_string (Body.paymentType body))
      then (required, db)
      else
        match Body.amount body, Body.paymentMethod body, Body.paymentType body with
        | Some amount, Some paymentMethod, Some paymentType =>
            let visit :=
              Visit.recordPayment now
                (PaymentData.mk amount paymentMethod paymentType
                   (Body.receiptNumber body) (Body.transactionId body)
                   (Body.payment_notes body))
                user visit in
            match save validate now false visit db with
            | inl message => (mkResponse 400 (Error message), db)
            | inr (visit, db') =>
                (mkResponse 201
                   (SuccessSummary "Payment recorded successfully"
                      (Visit.getPaymentSummary visit)),
                 db')
            end
        | _, _, _ => (required, db) (* an absent field is falsy *)
        end
  end.

(** [PATCH /api/visits/:id/payment-status] *)
Definition updatePaymentStatus (now : Date) (db : Db) (id : ObjectId)
    (body : Body.PaymentStatus) : Response * Db :=
  let paymentConfirmed := Body.paymentConfirmed body in
  match Visit_findById db id with
  | None => (mkResponse 404 (Error "Visit not found"), db)
  | Some visit =>
      if (Visit.status visit =? "Pending Payment") && JS.truthy_bool paymentConfirmed then
        let visit := Visit.set_status "In Queue" visit in
        let visit := Visit.set_consultationFeePaid true visit in
        match save validate now false visit db with
        | inl _ => (mkResponse 500 (Error "Server Error"), db)
        | inr (visit, db') =>
            (mkResponse 200 (SuccessVisit visit "Payment confirmed. Visit moved to queue."),
             db')
        end
      else
        (mkResponse 400
           (Error "Visit is not in Pending Payment status or payment already confirmed"),
         db)
  end.

(** [PATCH /api/visits/:id/end-visit].  When the visit is missing the 404 is
    sent and the handler goes on to fail on [null]; the client has its answer
    by then and nothing is written. *)
Definition endVisitRoute (now : Date) (db : Db) (id : ObjectId) : Response * Db :=
  match Visit_findById db id with
  | None => (mkResponse 404 (Error "Visit not found"), db)
  | Some visit =>
      let visit := Visit.set_isActive (negb (Visit.isActive visit)) visit in
      match save validate now false visit db with
      | inl _ => (mkResponse 500 (Error "Server Error"), db)
      | inr (visit, db') =>
          (mkResponse 200
             (SuccessMessage
                ("Visit " ++ (if Visit.isActive visit then "true" else "false")
                 ++ " ended successfully")),
           db')
      end
  end.

End Routes.

(** ** The constraints the schemas declare

    [required] and [enum] as Mongoose checks them when a visit is saved.  The
    handlers above take the validator as a parameter; this one instantiates
    them on concrete requests.  Mongoose's own wording of the error is not
    reproduced. *)

Module Schema.

Definition one_of (values : list string) (s : string) : bool :=
  existsb (String.eqb s) values.

Definition required (s : string) : bool := negb (s =? "").

Definition labOrder_ok (o : LabOrder.t) : bool :=
  required (LabOrder.testName o)
  && one_of ["Pending"; "Completed"; "Cancelled"] (LabOrder.status o)
  && one_of ["pending"; "paid"; "insurance_claimed"; "waived"] (LabOrder.paymentStatus o).

Definition serviceCharge_ok (c : ServiceCharge.t) : bool :=
  one_of ["consultation"; "lab_test"; "radiology"; "prescription"; "procedure"; "other"]
    (ServiceCharge.serviceType c)
  && required (ServiceCharge.serviceName c)
  && one_of ["pending"; "paid"; "insurance_claimed"; "partially_paid"; "waived"]
       (ServiceCharge.paymentStatus c).

Definition paymentRecord_ok (p : PaymentRecord.t) : bool :=
  one_of ["cash"; "card"; "mobile_money"; "insurance"; "bank_transfer"]
    (PaymentRecord.paymentMethod p)
  && one_of ["consultation_fee"; "service_payment"; "deposit"; "full_payment"]
       (PaymentRecord.paymentType p)
  && required (PaymentRecord.receivedBy p).

Definition visit_ok (v : Visit.t) : bool :=
  required (Visit.patient v)
  && required (Visit.doctor v)
  && one_of ["Pending Payment"; "In Queue"; "In-Progress"; "completed"] (Visit.status v)
  && one_of ["consultation"; "emergency"; "follow-up"; "routine"] (Visit.type v)
  && required (Visit.reason v)
  && required (Visit.startedBy v)
  && forallb (fun d => required (Diagnosis.condition d)) (Visit.diagnosis v)
  && forallb labOrder_ok (Visit.labOrders v)
  && forallb serviceCharge_ok (Visit.serviceCharges v)
  && forallb paymentRecord_ok (Visit.paymentRecords v).

Definition validate (v : Visit.t) : option string :=
  if visit_ok v then None else Some "Visit validation failed".

End Schema.

(** ** What the aggregate fields are specified to be *)

Module Ledger.

(** The sum of [f] over a sequence, taken in sequence order from [0]. *)
Fixpoint sum_from {A : Type} (f : A -> Number) (acc : Number) (l : list A) : Number :=
  match l with
  | [] => acc
  | x :: l => sum_from f (acc + f x)%float l
  end.

Definition sum_of {A : Type} (f : A -> Number) (l : list A) : Number :=
  sum_from f 0%float l.

(** The invariants of the derived fields. *)
Definition consistent (v : Visit.t) : Prop :=
  Visit.totalCharges v = sum_of ServiceCharge.totalPrice (Visit.serviceCharges v)
  /\ Visit.insuranceCoverage v
     = sum_of ServiceCharge.insuranceCoverage (Visit.serviceCharges v)
  /\ Visit.patientResponsibility v
     = sum_of ServiceCharge.patientResponsibility (Visit.serviceCharges v)
  /\ Visit.totalPaid v = sum_of PaymentRecord.amount (Visit.paymentRecords v)
  /\ Visit.outstandingBalance v
     = (Visit.patientResponsibility v - Visit.totalPaid v)%float
  /\ (Visit.allServicesPaid v = true
      <-> PrimFloat.leb (Visit.outstandingBalance v) 0%float = true).

(** Every path of a visit that is not a derived aggregate. *)
Definition non_derived (v : Visit.t) :=
  (Visit._id v, Visit.visitId v, Visit.patient v, Visit.doctor v, Visit.visitDate v,
   Visit.status v, Visit.type v, Visit.reason v, Visit.symptoms v, Visit.startedBy v,
   Visit.endedBy v, Visit.room v, Visit.notes v, Visit.duration v, Visit.vitalSigns v,
   Visit.diagnosis v, Visit.labOrders v, Visit.prescriptions v,
   Visit.serviceCharges v, Visit.paymentRecords v, Visit.consultationFeePaid v,
   Visit.consultationFeeAmount v, Visit.isActive v).

(** The six derived aggregates. *)
Definition derived (v : Visit.t) :=
  (Visit.totalCharges v, Visit.insuranceCoverage v, Visit.patientResponsibility v,
   Visit.totalPaid v, Visit.outstandingBalance v, Visit.allServicesPaid v).

(** Every path that neither ledger method is meant to reach. *)
Definition clinical (v : Visit.t) :=
  (Visit._id v, Visit.visitId v, Visit.patient v, Visit.doctor v, Visit.visitDate v,
   Visit.status v, Visit.type v, Visit.reason v, Visit.symptoms v, Visit.startedBy v,
   Visit.endedBy v, Visit.room v, Visit.notes v, Visit.duration v, Visit.vitalSigns v,
   Visit.diagnosis v, Visit.labOrders v, Visit.prescriptions v, Visit.isActive v).

(** A patient without insurance: no [insurance] object, or no provider in
    it, or an empty provider. *)
Definition uninsured (p : Patient.t) : Prop :=
  Patient.insurance p = None
  \/ exists i, Patient.insurance p = Some i
               /\ (Patient.provider i = None \/ Patient.provider i = Some "").

(** The visits of a patient that are active. *)
Definition activeVisits (db : Db) (patientId : ObjectId) : list Visit.t :=
  filter (fun v => (Visit.patient v =? patientId) && Visit.isActive v) (visits db).

(** At most one active visit for every patient. *)
Definition one_active_per_patient (db : Db) : Prop :=
  forall patientId, List.length (activeVisits db patientId) <= 1.

End Ledger.

(** ** Concrete patients, requests and databases *)

Module Sample.

Definition now : Date := mkDate 1793577600000%Z 2026.

(** An uninsured and an insured patient. *)
Definition amina : Patient.t := Patient.mk "p1" None.
Definition baraka : Patient.t :=
  Patient.mk "p2" (Some (Patient.mkInsurance (Some "NHIF"))).

Definition db0 : Db := mkDb [] [amina; baraka] [].

Definition receptionist : ObjectId := "u1".
Definition doctor : ObjectId := "u2".

Definition visit_for (patient : ObjectId) (status : option string) : Body.CreateVisit :=
  Body.mkCreateVisit patient doctor None "fever" status "consultation".

(** The visit [createVisit] stores for the uninsured patient in [db0]. *)
Definition pending_visit : Visit.t :=
  Visit.set_visitId (Some "V2600001")
    (new_Visit "a1" now "p1" doctor None "fever" "Pending Payment" "consultation"
       receptionist).

Definition queued_visit : Visit.t := Visit.set_status "In Queue" pending_visit.

Definition db_pending : Db := mkDb [pending_visit] [amina; baraka] [].
Definition db_queued : Db := mkDb [queued_visit] [amina; baraka] [].

Definition labOrder_request (visit : option Visit.t) (hasInsurance : option bool)
    : Request Body.LabOrder :=
  mkRequest (Some "a1") (Body.mkLabOrder None None "Full Blood Count" None) doctor
    visit hasInsurance None.


Definition cash (amount : option Number) (paymentType : option string) : Body.Payment :=
  Body.mkPayment amount (Some "cash") paymentType None None None.

(** A prescription charge of 100 at 70 percent coverage. *)
Definition prescription_charge : ServiceData.t :=
  ServiceData.mk "prescription" "Amoxicillin" None 100%float (Some 1%float) (Some true)
    (Some 70%float) None.

(** Requests in a row for the uninsured patient: a visit is created and ended
    and a second visit is created; then the first is ended once more. *)
Definition before_second_end : Db :=
  let db1 := snd (createVisit Schema.validate now "a1" db0 (visit_for "p1" None) receptionist) in
  let db2 := snd (endVisitRoute Schema.validate now db1 "a1") in
  snd (createVisit Schema.validate now "b2" db2 (visit_for "p1" None) receptionist).

Definition end_twice : Db :=
  snd (endVisitRoute Schema.validate now before_second_end "a1").

End Sample.

(** ** More of [models/Visit.js] *)

Module VisitMethods.

Definition set_endedBy (x : option ObjectId) (v : Visit.t) : Visit.t :=
  Visit.mk (Visit._id v) (Visit.visitId v) (Visit.patient v) (Visit.doctor v)
    (Visit.visitDate v) (Visit.status v) (Visit.type v) (Visit.reason v)
    (Visit.symptoms v) (Visit.startedBy v) x (Visit.room v) (Visit.notes v)
    (Visit.duration v) (Visit.vitalSigns v) (Visit.diagnosis v) (Visit.labOrders v)
    (Visit.prescriptions v) (Visit.serviceCharges v) (Visit.paymentRecords v)
    (Visit.totalCharges v) (Visit.insuranceCoverage v) (Visit.patientResponsibility v)
    (Visit.totalPaid v) (Visit.outstandingBalance v) (Visit.consultationFeePaid v)
    (Visit.consultationFeeAmount v) (Visit.allServicesPaid v) (Visit.isActive v).

Definition set_notes (x : option string) (v : Visit.t) : Visit.t :=
  Visit.mk (Visit._id v) (Visit.visitId v) (Visit.patient v) (Visit.doctor v)
    (Visit.visitDate v) (Visit.status v) (Visit.type v) (Visit.reason v)
    (Visit.symptoms v) (Visit.startedBy v) (Visit.endedBy v) (Visit.room v) x
    (Visit.duration v) (Visit.vitalSigns v) (Visit.diagnosis v) (Visit.labOrders v)
    (Visit.prescriptions v) (Visit.serviceCharges v) (Visit.paymentRecords v)
    (Visit.totalCharges v) (Visit.insuranceCoverage v) (Visit.patientResponsibility v)
    (Visit.totalPaid v) (Visit.outstandingBalance v) (Visit.consultationFeePaid v)
    (Visit.consultationFeeAmount v) (Visit.allServicesPaid v) (Visit.isActive v).

Definition set_diagnosis (x : list Diagnosis.t) (v : Visit.t) : Visit.t :=
  Visit.mk (Visit._id v) (Visit.visitId v) (Visit.patient v) (Visit.doctor v)
    (Visit.visitDate v) (Visit.status v) (Visit.type v) (Visit.reason v)
    (Visit.symptoms v) (Visit.startedBy v) (Visit.endedBy v) (Visit.room v)
    (Visit.notes v) (Visit.duration v) (Visit.vitalSigns v) x (Visit.labOrders v)
    (Visit.prescriptions v) (Visit.serviceCharges v) (Visit.paymentRecords v)
    (Visit.totalCharges v) (Visit.insuranceCoverage v) (Visit.patientResponsibility v)
    (Visit.totalPaid v) (Visit.outstandingBalance v) (Visit.consultationFeePaid v)
    (Visit.consultationFeeAmount v) (Visit.allServicesPaid v) (Visit.isActive v).

(** The text an end note is appended with: a line feed, then the label. *)
Definition endNote_label : string := String "010"%char "End Note: ".

(** [visitSchema.methods.endVisit(endedById, endNotes = '')]: the left case is
    the message of the thrown error, or the error [save] rejects with. *)
Definition endVisit (validate : Visit.t -> option string) (now : Date)
    (endedById : ObjectId) (endNotes : option string) (this : Visit.t) (db : Db)
    : string + (Visit.t * Db) :=
  let endNotes := match endNotes with Some s => s | None => "" end in
  if negb (Visit.status this =? "In-Progress") then inl "Visit is not in progress."
  else
    let this := Visit.set_status "completed" this in
    let this := set_endedBy (Some endedById) this in
    let this :=
      if JS.truthy_string (Some endNotes)
      then set_notes (Some (JS.or_string (Visit.notes this) "" ++ endNote_label ++ endNotes)) this
      else this in
    save validate now false this db.

(** [visitSchema.statics.getVisitsWithOutstandingPayments]: the query
    [{ outstandingBalance: { $gt: 0 }, isActive: true }]; the two [populate]
    calls decorate the documents found and select none. *)
Definition getVisitsWithOutstandingPayments (db : Db) : list Visit.t :=
  filter (fun v => PrimFloat.ltb 0%float (Visit.outstandingBalance v) && Visit.isActive v)
    (visits db).

End VisitMethods.

(** ** The earlier Visit model (appended to the source file of the visit routes) *)

Module LegacyVisit.

Record labOrder := mkLabOrder {
  labOrder_testName : string;
  labOrder_patient : ObjectId;
  labOrder_orderedBy : ObjectId;
  labOrder_status : string;
  labOrder_results : option string;
  labOrder_notes : option string
}.

Record t := mk {
  visitId : option string;
  patient : ObjectId;
  doctor : ObjectId;
  visitDate : Date;
  status : string;
  type : string;
  reason : string;
  symptoms : list string;
  startedBy : ObjectId;
  endedBy : option ObjectId;
  room : option string;
  notes : option string;
  duration : option Number;
  vitalSigns : option VitalSigns.t;
  diagnosis : list Diagnosis.t;
  labOrders : list labOrder;
  prescriptions : option ObjectId;
  isActive : bool
}.

(** The values the schema allows for [status]. *)
Definition status_enum : list string :=
  ["Pending Payment"; "In Queue"; "In-Progress"; "completed"].

(** [visitSchema.methods.endVisit]; [save] is the document's own [save]. *)
Definition endVisit (save : t -> string + t) (endedById : ObjectId)
    (endNotes : option string) (this : t) : string + t :=
  let endNotes := match endNotes with Some s => s | None => "" end in
  if negb (status this =? "active") then inl "Visit is not active."
  else
    let this :=
      mk (visitId this) (patient this) (doctor this) (visitDate this) "completed"
        (type this) (reason this) (symptoms this) (startedBy this) (Some endedById)
        (room this) (notes this) (duration this) (vitalSigns this) (diagnosis this)
        (labOrders this) (prescriptions this) (isActive this) in
    let this :=
      if JS.truthy_string (Some endNotes)
      then mk (visitId this) (patient this) (doctor this) (visitDate this) (status this)
             (type this) (reason this) (symptoms this) (startedBy this) (endedBy this)
             (room this)
             (Some (JS.or_string (notes this) "" ++ VisitMethods.endNote_label ++ endNotes))
             (duration this) (vitalSigns this) (diagnosis this) (labOrders this)
             (prescriptions this) (isActive this)
      else this in
    save this.

End LegacyVisit.

(** ** More of the middleware and the routes *)

(** The visit id as [checkVisitActive] extracts it:
    [req.params.id || req.body.visit || req.body.visitId]. *)
Definition active_visitId {B : Type} `{VisitRefs B} (req : Request B) : option ObjectId :=
  if JS.truthy_string (params_id req) then params_id req
  else if JS.truthy_string (body_visit (body req)) then body_visit (body req)
  else body_visitId (body req).

Module MoreBody.

Record Prescription := mkPrescription {
  prescription_visit : option ObjectId;
  prescription_visitId : option ObjectId;
  medication : string;
  dosage : string;
  frequency : string;
  duration : option string
}.

Record Diagnosis := mkDiagnosis {
  condition : string;
  icd10Code : option string;
  notes : option string
}.

Record Clinical := mkClinical {
  diagnosis : option (list Diagnosis.t);
  labOrders : option (list LabOrder.t);
  prescriptions : option (list ObjectId);
  status : option string
}.

End MoreBody.

#[export] Instance Prescription_refs : VisitRefs MoreBody.Prescription :=
  {| body_visit := MoreBody.prescription_visit;
     body_visitId := MoreBody.prescription_visitId |}.

(** The JSON bodies of the handlers below, one constructor per shape. *)
Module Reply.

Inductive body :=
| Failure (message : string)                             (* { status: 'error', message } *)
| Message (message : string)                             (* { message } *)
| Failed (message error : string)                        (* { message, error } *)
| DiagnosisAdded (data : option Diagnosis.t)             (* { status: 'success', data } *)
| VisitUpdated (data : Visit.t)                          (* { status: 'success', data } *)
| Summary (data : Visit.PaymentSummary)                  (* { status: 'success', data } *)
| OutstandingVisits (count : nat) (data : list Visit.t). (* { status, count, data } *)

Record t := mk { httpStatus : nat; json : body }.

End Reply.

Section MoreRoutes.

Variable validate : Visit.t -> option string.

(** The message of the [TypeError] raised by [visit.prescriptions.push]: the
    schema holds one [ObjectId] under [prescriptions], so the value is either
    [undefined] or an object without a [push] method. *)
Definition prescriptions_push_error (visit : Visit.t) : string :=
  match Visit.prescriptions visit with
  | None => "Cannot read properties of undefined (reading 'push')"
  | Some _ => "visit.prescriptions.push is not a function"
  end.

(** The handler of [POST /api/visits/:id/prescriptions], after its middleware:
    the price lookup is survived whatever it does, and the push that follows
    throws into the catch block before anything is saved. *)
Definition addPrescription (lookup : ServiceLookup) (db : Db)
    (req : Request MoreBody.Prescription) : Response * Db :=
  match req_visit req with
  | None => (mkResponse 400 (Error TypeError_undefined), db)
  | Some visit =>
      let medicationPrice :=
        match lookup with
        | LookupFound price => price
        | LookupNull => 0%float
        | LookupThrows => 0%float
        end in
      (mkResponse 400 (Error (prescriptions_push_error visit)), db)
  end.

(** [POST /api/visits/:id/prescriptions]: the two gates, then the handler. *)
Definition prescriptionsRoute (lookup : ServiceLookup) (db : Db)
    (req : Request MoreBody.Prescription) : Response * Db :=
  match checkPaymentEligibility db req with
  | Respond res => (res, db)
  | Next req =>
      match checkVisitActive db req with
      | Respond res => (res, db)
      | Next req => addPrescription lookup db req
      end
  end.

(** [POST /api/visits/:id/diagnosis] *)
Definition addDiagnosis (now : Date) (db : Db) (id : ObjectId) (body : MoreBody.Diagnosis)
    (user : ObjectId) : Reply.t * Db :=
  match Visit_findById db id with
  | None => (Reply.mk 404 (Reply.Failure "Visit not found"), db)
  | Some visit =>
      let newDiagnosis :=
        Diagnosis.mk (MoreBody.condition body) (Visit.patient visit) user
          (MoreBody.notes body) (MoreBody.icd10Code body) false in
      let visit :=
        VisitMethods.set_diagnosis (Visit.diagnosis visit ++ [newDiagnosis]) visit in
      match save validate now false visit db with
      | inl message => (Reply.mk 400 (Reply.Failure message), db)
      | inr (visit, db') =>
          (Reply.mk 201 (Reply.DiagnosisAdded (last_item (Visit.diagnosis visit))), db')
      end
  end.

(** [PUT /api/visits/:id/clinical] *)
Definition updateClinical (now : Date) (db : Db) (id : ObjectId) (body : MoreBody.Clinical)
    : Reply.t * Db :=
  match Visit_findById db id with
  | None => (Reply.mk 404 (Reply.Message "Visit not found"), db)
  | Some visit =>
      let visit :=
        match MoreBody.diagnosis body with
        | Some diagnosis => VisitMethods.set_diagnosis diagnosis visit
        | None => visit
        end in
      let visit :=
        match MoreBody.labOrders body with
        | Some labOrders => Visit.set_labOrders (Visit.labOrders visit ++ labOrders) visit
        | None => visit
        end in
      match MoreBody.prescriptions body with
      | Some _ =>
          (Reply.mk 400
             (Reply.Failed "Failed to update clinical data" (prescriptions_push_error visit)),
           db)
      | None =>
          let visit :=
            match MoreBody.status body with
            | Some status =>
                if JS.truthy_string (Some status) then Visit.set_status status visit
                else visit
            | None => visit
            end in
          match save validate now false visit db with
          | inl message =>
              (Reply.mk 400 (Reply.Failed "Failed to update clinical data" message), db)
          | inr (visit, db') => (Reply.mk 200 (Reply.VisitUpdated visit), db')
          end
      end
  end.

(** [GET /api/visits/:id/payment-summary] *)
Definition getPaymentSummaryRoute (db : Db) (id : ObjectId) : Reply.t :=
  match Visit_findById db id with
  | None => Reply.mk 404 (Reply.Failure "Visit not found")
  | Some visit => Reply.mk 200 (Reply.Summary (Visit.getPaymentSummary visit))
  end.

(** [GET /api/visits/reports/outstanding-payments] *)
Definition outstandingPaymentsRoute (db : Db) : Reply.t :=
  let visits := VisitMethods.getVisitsWithOutstandingPayments db in
  Reply.mk 200 (Reply.OutstandingVisits (List.length visits) visits).

End MoreRoutes.

(** The visits of [db] are still in [db'], in their places and under their
    ids; [db'] may hold more at the end. *)
Definition keeps_visits (db db' : Db) : Prop :=
  exists added, map Visit._id (visits db') = (map Visit._id (visits db) ++ added)%list.

(** More requests and databases. *)
Module Fixture.

(** A visit in progress, and the same visit closed by [end-visit]. *)
Definition inProgress_visit : Visit.t := Visit.set_status "In-Progress" Sample.pending_visit.
Definition closed_visit : Visit.t := Visit.set_isActive false Sample.queued_visit.

Definition db_inProgress : Db := mkDb [inProgress_visit] [Sample.amina; Sample.baraka] [].
Definition db_closed : Db := mkDb [closed_visit] [Sample.amina; Sample.baraka] [].

(** The insured patient's visit, queued from the start. *)
Definition insured_visit : Visit.t :=
  Visit.set_visitId (Some "V2600002")
    (new_Visit "b2" Sample.now "p2" Sample.doctor None "cough" "In Queue" "consultation"
       Sample.receptionist).

(** The uninsured patient's visit pending payment beside the insured one. *)
Definition db_two : Db :=
  mkDb [Sample.pending_visit; insured_visit] [Sample.amina; Sample.baraka] [].

(** A lab order for the route of visit [a1] whose body points at visit [b2]. *)
Definition crossed_request : Request Body.LabOrder :=
  mkRequest (Some "a1") (Body.mkLabOrder (Some "b2") None "Full Blood Count" None)
    Sample.doctor None None None.

Definition no_reference : Request Body.LabOrder :=
  mkRequest None (Body.mkLabOrder None (Some "") "Full Blood Count" None) Sample.doctor
    None None None.

Definition prescription_request : Request MoreBody.Prescription :=
  mkRequest (Some "a1")
    (MoreBody.mkPrescription None None "Amoxicillin" "500mg" "3 per day" None)
    Sample.doctor None None None.

(** A legacy visit in progress whose [save] always succeeds. *)
Definition legacy_visit : LegacyVisit.t :=
  LegacyVisit.mk (Some "V2600001") "p1" Sample.doctor Sample.now "In-Progress" "consultation"
    "fever" [] Sample.receptionist None None None None None [] [] None true.

End Fixture.

(** * Properties of the ledger *)

Section LedgerFacts.

Import Ledger.

(** [reduce] with an adding callback is the running sum. *)
Lemma reduce_sum_from {A : Type} (f : A -> Number) (l : list A) (acc : Number) :
  JS.reduce l (fun sum x => (sum + f x)%float) acc = sum_from f acc l.
Proof.
  unfold JS.reduce. revert acc.
  induction l as [|x l IH]; intro acc; simpl; [reflexivity | apply IH].
Qed.

Lemma reduce_sum_of {A : Type} (f : A -> Number) (l : list A) :
  JS.reduce l (fun sum x => (sum + f x)%float) 0%float = sum_of f l.
Proof. apply reduce_sum_from. Qed.

(** The recompute reads the two sequences only and leaves them in place. *)
Lemma calculateFinancials_non_derived (v : Visit.t) :
  non_derived (Visit.calculateFinancials v) = non_derived v.
Proof. reflexivity. Qed.

Lemma calculateFinancials_consistent (v : Visit.t) :
  consistent (Visit.calculateFinancials v).
Proof.
  unfold consistent.
  repeat split; auto;
    match goal with
    | |- _ = sum_of ?f ?l => exact (reduce_sum_of f l)
    end.
Qed.

(** Two visits with the same sequences get the same aggregates. *)
Lemma calculateFinancials_derived_ext (v w : Visit.t) :
  Visit.serviceCharges v = Visit.serviceCharges w ->
  Visit.paymentRecords v = Visit.paymentRecords w ->
  derived (Visit.calculateFinancials v) = derived (Visit.calculateFinancials w).
Proof.
  intros Hc Hp. unfold derived, Visit.calculateFinancials; cbn.
  rewrite Hc, Hp. reflexivity.
Qed.

Lemma calculateFinancials_twice (v : Visit.t) :
  Visit.calculateFinancials (Visit.calculateFinancials v) = Visit.calculateFinancials v.
Proof. vm_compute. reflexivity. Qed.



End LedgerFacts.


(** An overpayment leaves a negative balance: 50 paid against a patient share
    of 30 gives -20, and the visit counts as paid. *)
Example overpayment_is_not_clamped :
  let v := Visit.recordPayment Sample.now
             (PaymentData.mk 50%float "cash" "service_payment" None None None) "u1"
             (Visit.addServiceCharge Sample.prescription_charge "u2" Sample.queued_visit) in
  Visit.outstandingBalance v = (-20)%float /\ Visit.allServicesPaid v = true.
Proof. split; reflexivity. Qed.


(** The fields the destructuring defaults: one unit, no insurance, no coverage. *)
Lemma addServiceCharge_defaults :
  forall (p : Number) serviceType serviceName serviceId notes (user : ObjectId) (v : Visit.t),
    Visit.addServiceCharge
      (ServiceData.mk serviceType serviceName serviceId p None None None notes) user v
    = Visit.addServiceCharge
        (ServiceData.mk serviceType serviceName serviceId p (Some 1%float) (Some false)
           (Some 0%float) notes) user v.
Proof. reflexivity. Qed.

(** A prescription of 100 at 70 percent coverage: 70 covered, 30 for the
    patient; a payment of 30 then settles the visit. *)
Example insured_prescription_scenario :
  let v := Visit.addServiceCharge Sample.prescription_charge "u2" Sample.queued_visit in
  let w := Visit.recordPayment Sample.now
             (PaymentData.mk 30%float "cash" "service_payment" None None None) "u1" v in
  Ledger.derived v = (100%float, 70%float, 30%float, 0%float, 30%float, false)
  /\ Ledger.derived w = (100%float, 70%float, 30%float, 30%float, 0%float, true).
Proof. split; reflexivity. Qed.

(** C4. The recompute is idempotent: applied [n] times, for any [n >= 1], it
    gives the visit that one application gives, and that visit differs from the
    original in the six derived fields only. *)
Theorem calculateFinancials_idempotent :
  forall (v : Visit.t) (n : nat),
    Nat.iter (S n) Visit.calculateFinancials v = Visit.calculateFinancials v
    /\ Ledger.non_derived (Visit.calculateFinancials v) = Ledger.non_derived v.
Proof.
  intros v n; split; [|apply calculateFinancials_non_derived].
  induction n as [|n IH]; [reflexivity|].
  change (Nat.iter (S (S n)) Visit.calculateFinancials v)
    with (Visit.calculateFinancials (Nat.iter (S n) Visit.calculateFinancials v)).
  rewrite IH. apply calculateFinancials_twice.
Qed.

(** C10. [recordPayment] appends one payment record, leaves the service charges
    and every clinical path as they were, and sets [consultationFeePaid] and
    [consultationFeeAmount] only for a [consultation_fee] payment;
    [addServiceCharge] appends one service charge and leaves the payment
    records, the consultation-fee fields and every clinical path (among them
    [status] and [isActive]) as they were. *)
Theorem ledger_methods_frame :
  forall (now : Date) (user : ObjectId) (v : Visit.t),
    (forall paymentData,
        let v' := Visit.recordPayment now paymentData user v in
        (exists r, Visit.paymentRecords v' = (Visit.paymentRecords v ++ [r])%list)
        /\ Visit.serviceCharges v' = Visit.serviceCharges v
        /\ Ledger.clinical v' = Ledger.clinical v
        /\ Visit.consultationFeePaid v'
           = (if PaymentData.paymentType paymentData =? "consultation_fee"
              then true else Visit.consultationFeePaid v)
        /\ Visit.consultationFeeAmount v'
           = (if PaymentData.paymentType paymentData =? "consultation_fee"
              then PaymentData.amount paymentData else Visit.consultationFeeAmount v))
    /\ (forall serviceData,
           let v' := Visit.addServiceCharge serviceData user v in
           (exists c, Visit.serviceCharges v' = (Visit.serviceCharges v ++ [c])%list)
           /\ Visit.paymentRecords v' = Visit.paymentRecords v
           /\ Visit.status v' = Visit.status v
           /\ Visit.isActive v' = Visit.isActive v
           /\ Ledger.clinical v' = Ledger.clinical v
           /\ Visit.consultationFeePaid v' = Visit.consultationFeePaid v
           /\ Visit.consultationFeeAmount v' = Visit.consultationFeeAmount v).
Proof.
  intros now user v; split.
  - intros d v'. subst v'. unfold Visit.recordPayment.
    destruct (PaymentData.paymentType d =? "consultation_fee");
      cbn; (split; [eexists; reflexivity|]); repeat split; reflexivity.
  - intros d v'. subst v'. unfold Visit.addServiceCharge; cbn.
    split; [eexists; reflexivity|]. repeat split; reflexivity.
Qed.

(** * Properties of the eligibility gate *)

Lemma truthy_string_false (s : option string) :
  JS.truthy_string s = false <-> s = None \/ s = Some "".
Proof.
  destruct s as [s|]; simpl.
  - rewrite negb_false_iff, String.eqb_eq. split.
    + intros ->. now right.
    + intros [H|H]; [discriminate | now injection H].
  - split; [now left | reflexivity].
Qed.

Lemma hasInsurance_false_iff_uninsured (p : Patient.t) :
  Patient.hasInsurance p = false <-> Ledger.uninsured p.
Proof.
  unfold Patient.hasInsurance, Ledger.uninsured.
  destruct (Patient.insurance p) as [i|].
  - rewrite truthy_string_false. split.
    + intros H. right. exists i. split; [reflexivity | exact H].
    + intros [H|[j [Hj H]]]; [discriminate|]. now injection Hj as ->.
  - split; [now left | reflexivity].
Qed.

(** C3. For a request whose visit id resolves to a stored visit whose patient
    is loaded, the gate answers 403 with the payment-required body (the
    [requiresPayment] flag and the visit's [visitId]) exactly when the patient
    is uninsured and the status is [Pending Payment]; otherwise it calls the
    next handler with the visit, the insurance flag and the patient id
    attached to the request. *)
Theorem checkPaymentEligibility_gate :
  forall (B : Type) (R : VisitRefs B) (db : Db) (req : Request B)
         (id : ObjectId) (visit : Visit.t) (patient : Patient.t),
    eligibility_visitId req = Some id ->
    Visit_findById db id = Some visit ->
    Patient_findById db (Visit.patient visit) = Some patient ->
    let denied :=
      Respond (mkResponse 403
        (PaymentRequired
           "Payment required before ordering services. Please complete payment at the reception."
           true (Visit.visitId visit))) in
    let passed :=
      Next (mkRequest (params_id req) (body req) (user_id req) (Some visit)
              (Some (Patient.hasInsurance patient)) (Some (Patient._id patient))) in
    (checkPaymentEligibility db req = denied
     <-> Ledger.uninsured patient /\ Visit.status visit = "Pending Payment")
    /\ (~ (Ledger.uninsured patient /\ Visit.status visit = "Pending Payment")
        -> checkPaymentEligibility db req = passed).
Proof.
  intros B R db req id visit patient Hid Hv Hp denied passed.
  unfold checkPaymentEligibility. rewrite Hid, Hv, Hp.
  rewrite <- hasInsurance_false_iff_uninsured.
  destruct (Patient.hasInsurance patient); simpl.
  - split.
    + split; [discriminate | intros [H _]; discriminate].
    + reflexivity.
  - destruct (String.eqb_spec (Visit.status visit) "Pending Payment") as [E|E].
    + split; [split; [now split | reflexivity] | intros H; elim H; now split].
    + split; [split; [discriminate | intros [_ H]; contradiction] | reflexivity].
Qed.

Lemma checkPaymentEligibility_gate_witness :
  checkPaymentEligibility Sample.db_pending (Sample.labOrder_request None None)
  = Respond (mkResponse 403
      (PaymentRequired
         "Payment required before ordering services. Please complete payment at the reception."
         true (Some "V2600001")))
  /\ checkPaymentEligibility Sample.db_queued (Sample.labOrder_request None None)
     = Next (mkRequest (Some "a1") (Body.mkLabOrder None None "Full Blood Count" None)
               Sample.doctor (Some Sample.queued_visit) (Some false) (Some "p1")).
Proof.
  split.
  - apply (@checkPaymentEligibility_gate Body.LabOrder LabOrder_refs Sample.db_pending
             (Sample.labOrder_request None None) "a1" Sample.pending_visit Sample.amina
             eq_refl eq_refl eq_refl).
    split; [left; reflexivity | reflexivity].
  - refine (proj2 (@checkPaymentEligibility_gate Body.LabOrder LabOrder_refs Sample.db_queued
             (Sample.labOrder_request None None) "a1" Sample.queued_visit Sample.amina
             eq_refl eq_refl eq_refl) _).
    intros [_ H]. discriminate H.
Defined.

(** * Properties of the persistence calls *)

Section PersistenceFacts.

Variable validate : Visit.t -> option string.

(** Saving a stored document: a validation error, or the replacement. *)
Lemma save_existing (now : Date) (doc : Visit.t) (db : Db) :
  save validate now false doc db
  = match validate doc with
    | Some err => inl err
    | None =>
        inr (doc, set_visits
                    (map (fun v => if Visit._id v =? Visit._id doc then doc else v)
                       (visits db)) db)
    end.
Proof. unfold save. destruct (validate doc); reflexivity. Qed.

(** Saving a new document changes its visit id at most, and appends it. *)
Lemma save_new (now : Date) (doc visit : Visit.t) (db db' : Db) :
  save validate now true doc db = inr (visit, db') ->
  visits db' = (visits db ++ [visit])%list
  /\ patients db' = patients db
  /\ Visit.status visit = Visit.status doc
  /\ Visit.patient visit = Visit.patient doc
  /\ Visit.isActive visit = Visit.isActive doc.
Proof.
  unfold save. destruct (validate doc); [discriminate|].
  destruct (visitId_taken db (generateVisitId now db true doc)); [discriminate|].
  intros H; injection H as <- <-.
  unfold generateVisitId.
  destruct (true && negb (JS.truthy_string (Visit.visitId doc)));
    repeat split; reflexivity.
Qed.

(** After a replacement the stored document is the one saved. *)
Lemma findById_replaced (doc old : Visit.t) (l : list Visit.t) :
  find (fun v => Visit._id v =? Visit._id doc) l = Some old ->
  find (fun v => Visit._id v =? Visit._id doc)
    (map (fun v => if Visit._id v =? Visit._id doc then doc else v) l) = Some doc.
Proof.
  induction l as [|h l IH]; simpl; [discriminate|].
  destruct (Visit._id h =? Visit._id doc) eqn:E; simpl.
  - intros _. now rewrite String.eqb_refl.
  - rewrite E. exact IH.
Qed.

Lemma save_existing_findById (now : Date) (doc old : Visit.t) (db db' : Db) (id : ObjectId) :
  Visit_findById db id = Some old ->
  Visit._id doc = Visit._id old ->
  save validate now false doc db = inr (doc, db') ->
  Visit_findById db' id = Some doc.
Proof.
  intros Hold Hid. rewrite save_existing.
  destruct (validate doc); [discriminate|].
  intros H; injection H as <-.
  assert (Visit._id old = id) as Hold_id.
  { unfold Visit_findById in Hold. apply find_some in Hold.
    now apply String.eqb_eq. }
  unfold Visit_findById in *; simpl. rewrite <- Hold_id, <- Hid in *.
  now apply findById_replaced with (old := old).
Qed.

(** [arr[arr.length - 1]] right after a push is the pushed element. *)
Lemma last_item_pushed {A : Type} (l : list A) (x : A) :
  last_item (l ++ [x])%list = Some x.
Proof.
  unfold last_item. rewrite length_app; simpl.
  replace (List.length l + 1 - 1) with (List.length l) by lia.
  rewrite nth_error_app2 by lia. now rewrite Nat.sub_diag.
Qed.

End PersistenceFacts.

(** * Visit creation *)

Section CreationFacts.

Variable validate : Visit.t -> option string.

(** The guard of [POST /api/visits]: with an active visit on file the request
    is answered 400, the message names that visit, and nothing is written. *)
Lemma createVisit_rejects_second_active_visit
    (now : Date) (newId : ObjectId) (db : Db) (body : Body.CreateVisit) (user : ObjectId)
    (activeVisit : Visit.t) :
  Visit_findOne_active db (Body.patientId body) = Some activeVisit ->
  createVisit validate now newId db body user
  = (mkResponse 400
       (Error ("Patient already has an active visit (Visit ID: "
               ++ JS.or_string (Visit.visitId activeVisit) (Visit._id activeVisit)
               ++ "). Please end the current visit before starting a new one.")),
     db).
Proof. intros H. unfold createVisit. now rewrite H. Qed.

Lemma findOne_active_none (db : Db) (patientId : ObjectId) :
  Visit_findOne_active db patientId = None -> Ledger.activeVisits db patientId = [].
Proof.
  unfold Visit_findOne_active, Ledger.activeVisits.
  induction (visits db) as [|h l IH]; simpl; [reflexivity|].
  destruct ((Visit.patient h =? patientId) && Visit.isActive h); [discriminate | exact IH].
Qed.

(** Every visit [createVisit] writes is active; whatever it answers, the
    one-active-visit invariant survives the request. *)
Lemma createVisit_keeps_one_active
    (now : Date) (newId : ObjectId) (db : Db) (body : Body.CreateVisit) (user : ObjectId) :
  Ledger.one_active_per_patient db ->
  Ledger.one_active_per_patient (snd (createVisit validate now newId db body user)).
Proof.
  intros Inv. unfold createVisit.
  destruct (Visit_findOne_active db (Body.patientId body)) eqn:Hact; [exact Inv|].
  destruct (Patient_findById db (Body.patientId body)) as [patient|]; [|exact Inv].
  cbv zeta.
  match goal with |- context [save validate now true ?d db] =>
    destruct (save validate now true d db) as [err|[visit db']] eqn:Hsave
  end; [exact Inv|].
  apply save_new in Hsave. destruct Hsave as (Hvs & _ & _ & Hpat & _).
  simpl in Hpat. simpl. intros p.
  unfold Ledger.activeVisits. rewrite Hvs, filter_app, length_app. simpl.
  destruct (String.eqb_spec (Visit.patient visit) p) as [E|E]; simpl.
  - subst p. rewrite Hpat.
    apply findOne_active_none in Hact. unfold Ledger.activeVisits in Hact.
    rewrite Hact. destruct (Visit.isActive visit); simpl; lia.
  - specialize (Inv p). unfold Ledger.activeVisits in Inv. lia.
Qed.

End CreationFacts.

(** C5. The creation guard keeps a patient to one active visit
    ([createVisit_rejects_second_active_visit], [createVisit_keeps_one_active]),
    but [end-visit] flips [isActive] instead of clearing it: asked to end the
    patient's closed first visit while a second visit is open, it answers 200
    and leaves the patient with two active visits. *)
Theorem end_visit_reactivates_closed_visit :
  map Visit._id (Ledger.activeVisits Sample.before_second_end "p1") = ["b2"]
  /\ fst (endVisitRoute Schema.validate Sample.now Sample.before_second_end "a1")
     = mkResponse 200 (SuccessMessage "Visit true ended successfully")
  /\ map Visit._id (Ledger.activeVisits Sample.end_twice "p1") = ["a1"; "b2"]
  /\ ~ Ledger.one_active_per_patient Sample.end_twice.
Proof.
  repeat split; try (vm_compute; reflexivity).
  intros H. specialize (H "p1"). vm_compute in H. lia.
Qed.




(** An insured patient is queued whatever status the request carries. *)
Example createVisit_insured_in_queue :
  exists visit db',
    createVisit Schema.validate Sample.now "a1" Sample.db0
      (Sample.visit_for "p2" (Some "Pending Payment")) Sample.receptionist
    = (mkResponse 201
         (SuccessVisit visit
            "Visit created successfully and moved to In Queue (insurance coverage)"),
       db')
    /\ Visit.status visit = "In Queue".
Proof. eexists. eexists. split; [vm_compute; reflexivity | reflexivity]. Qed.

(** * Recording and confirming payments *)





(** A zero amount counts as missing. *)
Example recordPaymentRoute_zero_amount :
  fst (recordPaymentRoute Schema.validate Sample.now Sample.db_queued "a1"
         (Sample.cash (Some 0%float) (Some "deposit")) Sample.receptionist)
  = mkResponse 400 (Error "Amount, payment method, and payment type are required").
Proof. vm_compute. reflexivity. Qed.

(** The check is on truthiness only: a negative amount is recorded. *)
Example recordPaymentRoute_negative_amount :
  httpStatus
    (fst (recordPaymentRoute Schema.validate Sample.now Sample.db_queued "a1"
            (Sample.cash (Some (-5)%float) (Some "deposit")) Sample.receptionist)) = 201.
Proof. vm_compute. reflexivity. Qed.

(** C9. On a stored visit, [PATCH /:id/payment-status] sets the status to
    [In Queue] and [consultationFeePaid] to true when the status is
    [Pending Payment] and the confirmation is given (200 once the save goes
    through, 500 with nothing written otherwise); in any other status, or
    without the confirmation, it answers 400 and writes nothing; and
    whatever it answers, the only status change it can leave behind is from
    [Pending Payment] to [In Queue], under a confirmation. *)
Theorem updatePaymentStatus_transition :
  forall (validate : Visit.t -> option string) (now : Date) (db : Db) (id : ObjectId)
         (body : Body.PaymentStatus) (visit : Visit.t),
    Visit_findById db id = Some visit ->
    let confirmed := Visit.set_consultationFeePaid true (Visit.set_status "In Queue" visit) in
    let refused :=
      mkResponse 400
        (Error "Visit is not in Pending Payment status or payment already confirmed") in
    (Visit.status visit = "Pending Payment" ->
     JS.truthy_bool (Body.paymentConfirmed body) = true ->
     Visit.status confirmed = "In Queue"
     /\ Visit.consultationFeePaid confirmed = true
     /\ match validate confirmed with
        | None =>
            exists db',
              updatePaymentStatus validate now db id body
              = (mkResponse 200
                   (SuccessVisit confirmed "Payment confirmed. Visit moved to queue."), db')
              /\ Visit_findById db' id = Some confirmed
        | Some _ =>
            updatePaymentStatus validate now db id body
            = (mkResponse 500 (Error "Server Error"), db)
        end)
    /\ (Visit.status visit <> "Pending Payment"
        \/ JS.truthy_bool (Body.paymentConfirmed body) = false ->
        updatePaymentStatus validate now db id body = (refused, db))
    /\ (forall res db' visit',
           updatePaymentStatus validate now db id body = (res, db') ->
           Visit_findById db' id = Some visit' ->
           Visit.status visit' <> Visit.status visit ->
           Visit.status visit = "Pending Payment"
           /\ Visit.status visit' = "In Queue"
           /\ JS.truthy_bool (Body.paymentConfirmed body) = true).
Proof.
  intros validate now db id body visit Hv confirmed refused.
  assert (forall db', save validate now false confirmed db = inr (confirmed, db') ->
                      Visit_findById db' id = Some confirmed) as Hfind.
  { intros db'. now apply save_existing_findById with (old := visit). }
  split; [|split].
  - intros Hst Hc. split; [reflexivity|]. split; [reflexivity|].
    unfold updatePaymentStatus. rewrite Hv, Hst, Hc. simpl. fold confirmed.
    destruct (validate confirmed) eqn:E; rewrite save_existing, E; [reflexivity|].
    eexists. split; [reflexivity|]. apply Hfind. now rewrite save_existing, E.
  - intros H. unfold updatePaymentStatus. rewrite Hv.
    destruct H as [H|H].
    + apply String.eqb_neq in H. now rewrite H.
    + rewrite H. now rewrite andb_false_r.
  - intros res db' visit'. unfold updatePaymentStatus. rewrite Hv.
    destruct (String.eqb_spec (Visit.status visit) "Pending Payment") as [Hst|Hst];
      destruct (JS.truthy_bool (Body.paymentConfirmed body)) eqn:Hc; simpl;
      try (intros H; injection H as <- <-; rewrite Hv; intros H; injection H as <-;
           intros H; now elim H).
    fold confirmed.
    destruct (save validate now false confirmed db) as [err|[saved db'']] eqn:Hsave.
    + intros H; injection H as <- <-. rewrite Hv. intros H; injection H as <-.
      intros H; now elim H.
    + assert (saved = confirmed) as ->.
      { rewrite save_existing in Hsave. destruct (validate confirmed); [discriminate|].
        now injection Hsave. }
      intros H; injection H as <- <-.
      rewrite (@save_existing_findById validate now confirmed visit db db'' id Hv eq_refl Hsave).
      intros H; injection H as <-. intros _. repeat split; trivial.
Qed.

Lemma updatePaymentStatus_transition_witness :
  (exists db',
      updatePaymentStatus Schema.validate Sample.now Sample.db_pending "a1"
        (Body.mkPaymentStatus (Some true))
      = (mkResponse 200
           (SuccessVisit (Visit.set_consultationFeePaid true Sample.queued_visit)
              "Payment confirmed. Visit moved to queue."), db')
      /\ Visit_findById db' "a1"
         = Some (Visit.set_consultationFeePaid true Sample.queued_visit))
  /\ updatePaymentStatus Schema.validate Sample.now Sample.db_queued "a1"
       (Body.mkPaymentStatus (Some true))
     = (mkResponse 400
          (Error "Visit is not in Pending Payment status or payment already confirmed"),
        Sample.db_queued).
Proof.
  split.
  - exact (proj2 (proj2
      (proj1 (@updatePaymentStatus_transition Schema.validate Sample.now Sample.db_pending
                "a1" (Body.mkPaymentStatus (Some true)) Sample.pending_visit eq_refl)
         eq_refl eq_refl))).
  - apply (proj1 (proj2
      (@updatePaymentStatus_transition Schema.validate Sample.now Sample.db_queued
         "a1" (Body.mkPaymentStatus (Some true)) Sample.queued_visit eq_refl))).
    left. discriminate.
Defined.

(** * Lab orders without a price *)




(** With a price of 50 found, the same request records the charge. *)
Example lab_order_with_price_is_charged :
  exists res db' visit,
    labOrdersRoute Schema.validate Sample.now "o1" (LookupFound 50%float) Sample.db_queued
      (Sample.labOrder_request None None) = (res, db')
    /\ httpStatus res = 201
    /\ Visit_findById db' "a1" = Some visit
    /\ map ServiceCharge.price (Visit.serviceCharges visit) = [50%float]
    /\ Ledger.derived visit = (50%float, 0%float, 50%float, 0%float, 50%float, false).
Proof.
  do 3 eexists. split; [vm_compute; reflexivity|].
  repeat split; reflexivity.
Qed.

(** The gate in front of the route: an uninsured visit pending payment gets 403. *)
Example lab_order_blocked_while_pending :
  labOrdersRoute Schema.validate Sample.now "o1" (LookupFound 50%float) Sample.db_pending
    (Sample.labOrder_request None None)
  = (mkResponse 403
       (PaymentRequired
          "Payment required before ordering services. Please complete payment at the reception."
          true (Some "V2600001")),
     Sample.db_pending).
Proof. vm_compute. reflexivity. Qed.

(** * More on the two gates *)

Lemma truthy_string_true (s : option string) :
  JS.truthy_string s = true <-> exists x, s = Some x /\ x <> "".
Proof.
  destruct s as [x|]; simpl.
  - rewrite negb_true_iff, String.eqb_neq. split.
    + intros H. now exists x.
    + intros [y [E H]]. now injection E as ->.
  - split; [discriminate | intros [y [E _]]; discriminate].
Qed.

Lemma checkVisitActive_unfold {B : Type} {R : VisitRefs B} (db : Db) (req : Request B) :
  checkVisitActive db req
  = match active_visitId req with
    | Some visitId =>
        if visitId =? "" then Respond (mkResponse 400 (Error "Visit ID is required"))
        else
          match Visit_findById db visitId with
          | None => Respond (mkResponse 404 (Error "Visit not found"))
          | Some visit =>
              if negb (Visit.isActive visit) then
                Respond (mkResponse 400 (Error "Cannot modify an inactive visit"))
              else
                Next (mkRequest (params_id req) (body req) (user_id req)
                        (Some visit) (req_hasInsurance req) (req_patientId req))
          end
    | None => Respond (mkResponse 400 (Error "Visit ID is required"))
    end.
Proof.
  unfold checkVisitActive. fold (active_visitId req).
  destruct (active_visitId req) as [s|]; simpl; [|reflexivity].
  destruct (s =? ""); reflexivity.
Qed.

(** X1. For a request whose visit id, read from the path first and the body
    next, resolves to a stored visit, [checkVisitActive] answers 400 "Cannot
    modify an inactive visit" exactly when [isActive] is false; otherwise it
    calls the next handler with that visit attached and the insurance flag and
    patient id of the request left as they were. *)
Theorem checkVisitActive_gate :
  forall (B : Type) (R : VisitRefs B) (db : Db) (req : Request B)
         (id : ObjectId) (visit : Visit.t),
    active_visitId req = Some id ->
    id <> "" ->
    Visit_findById db id = Some visit ->
    (checkVisitActive db req
     = Respond (mkResponse 400 (Error "Cannot modify an inactive visit"))
     <-> Visit.isActive visit = false)
    /\ (Visit.isActive visit = true ->
        checkVisitActive db req
        = Next (mkRequest (params_id req) (body req) (user_id req) (Some visit)
                  (req_hasInsurance req) (req_patientId req))).
Proof.
  intros B R db req id visit Hid Hne Hv.
  rewrite checkVisitActive_unfold, Hid.
  apply String.eqb_neq in Hne. rewrite Hne, Hv.
  destruct (Visit.isActive visit); simpl; split.
  - split; discriminate.
  - reflexivity.
  - split; reflexivity.
  - discriminate.
Qed.

Lemma checkVisitActive_gate_witness :
  checkVisitActive Fixture.db_closed (Sample.labOrder_request None None)
  = Respond (mkResponse 400 (Error "Cannot modify an inactive visit"))
  /\ checkVisitActive Sample.db_queued (Sample.labOrder_request None (Some true))
     = Next (Sample.labOrder_request (Some Sample.queued_visit) (Some true)).
Proof.
  split.
  - apply (@checkVisitActive_gate Body.LabOrder LabOrder_refs Fixture.db_closed
             (Sample.labOrder_request None None) "a1" Fixture.closed_visit eq_refl
             ltac:(discriminate) eq_refl).
    reflexivity.
  - exact (proj2 (@checkVisitActive_gate Body.LabOrder LabOrder_refs Sample.db_queued
             (Sample.labOrder_request None (Some true)) "a1" Sample.queued_visit eq_refl
             ltac:(discriminate) eq_refl) eq_refl).
Defined.

(** X2. Each gate answers 400 "Visit ID is required" exactly when the request
    carries no visit reference: [req.body.visit], [req.body.visitId] and
    [req.params.id] are all absent or empty. *)
Theorem gates_require_a_visit_id :
  forall (B : Type) (R : VisitRefs B) (db : Db) (req : Request B),
    let required := Respond (mkResponse 400 (Error "Visit ID is required")) in
    let none :=
      JS.truthy_string (body_visit (body req)) = false
      /\ JS.truthy_string (body_visitId (body req)) = false
      /\ JS.truthy_string (params_id req) = false in
    (checkPaymentEligibility db req = required <-> none)
    /\ (checkVisitActive db req = required <-> none).
Proof.
  intros B R db req required none. subst required none. split.
  - unfold checkPaymentEligibility, eligibility_visitId.
    destruct (JS.truthy_string (body_visit (body req))) eqn:E1;
      [|destruct (JS.truthy_string (body_visitId (body req))) eqn:E2;
        [|destruct (JS.truthy_string (params_id req)) eqn:E3]].
    4: { split; [now repeat split | reflexivity]. }
    all: match goal with
         | H : JS.truthy_string ?s = true |- _ =>
             destruct (proj1 (truthy_string_true s) H) as [x [-> _]]
         end;
      (split; [|intros (H1 & H2 & H3); discriminate]);
      destruct (Visit_findById db x) as [visit|]; [|discriminate];
      destruct (Patient_findById db (Visit.patient visit)); [|discriminate];
      destruct (negb _ && _); discriminate.
  - rewrite checkVisitActive_unfold. unfold active_visitId.
    destruct (JS.truthy_string (params_id req)) eqn:E3;
      [|destruct (JS.truthy_string (body_visit (body req))) eqn:E1;
        [|destruct (JS.truthy_string (body_visitId (body req))) eqn:E2]].
    4: { split; [now repeat split|]. intros _.
         apply truthy_string_false in E2. destruct E2 as [-> | ->]; reflexivity. }
    all: match goal with
         | H : JS.truthy_string ?s = true |- _ =>
             destruct (proj1 (truthy_string_true s) H) as [x [-> Hx]]
         end;
      (split; [|intros (H1 & H2 & H3); discriminate]);
      apply String.eqb_neq in Hx; rewrite Hx;
      destruct (Visit_findById db x) as [visit|]; [|discriminate];
      destruct (negb (Visit.isActive visit)); discriminate.
Qed.



Lemma checkPaymentEligibility_resolved {B : Type} {R : VisitRefs B} (db : Db)
    (req : Request B) (id : ObjectId) (visit : Visit.t) (patient : Patient.t) :
  eligibility_visitId req = Some id ->
  Visit_findById db id = Some visit ->
  Patient_findById db (Visit.patient visit) = Some patient ->
  checkPaymentEligibility db req
  = if negb (Patient.hasInsurance patient) && (Visit.status visit =? "Pending Payment")
    then Respond (mkResponse 403
           (PaymentRequired
              "Payment required before ordering services. Please complete payment at the reception."
              true (Visit.visitId visit)))
    else Next (mkRequest (params_id req) (body req) (user_id req) (Some visit)
                 (Some (Patient.hasInsurance patient)) (Some (Patient._id patient))).
Proof.
  intros Hid Hv Hp. unfold checkPaymentEligibility. now rewrite Hid, Hv, Hp.
Qed.

Lemma eligibility_condition_false (patient : Patient.t) (visit : Visit.t) :
  ~ (Ledger.uninsured patient /\ Visit.status visit = "Pending Payment") ->
  negb (Patient.hasInsurance patient) && (Visit.status visit =? "Pending Payment") = false.
Proof.
  intros H. rewrite <- hasInsurance_false_iff_uninsured in H.
  destruct (Patient.hasInsurance patient); [reflexivity|]. simpl.
  apply String.eqb_neq. intros E. apply H. now split.
Qed.

(** X4. The two gates in front of the lab-order route read the visit
    reference in different orders.  When the body names one visit and the path
    another, payment eligibility is decided on the visit of the body, and the
    handler then works on the (active) visit of the path, with the insurance
    flag of the other visit's patient: the status and the patient of the
    visit that receives the order are never looked at. *)
Theorem lab_order_gates_can_check_another_visit :
  forall (validate : Visit.t -> option string) (now : Date) (newId : ObjectId)
         (lookup : ServiceLookup) (db : Db) (req : Request Body.LabOrder)
         (inBody inPath : ObjectId) (checked target : Visit.t) (patient : Patient.t),
    Body.labOrder_visit (body req) = Some inBody -> inBody <> "" ->
    params_id req = Some inPath -> inPath <> "" ->
    Visit_findById db inBody = Some checked ->
    Patient_findById db (Visit.patient checked) = Some patient ->
    ~ (Ledger.uninsured patient /\ Visit.status checked = "Pending Payment") ->
    Visit_findById db inPath = Some target ->
    Visit.isActive target = true ->
    labOrdersRoute validate now newId lookup db req
    = addLabOrder validate now newId lookup db
        (mkRequest (Some inPath) (body req) (user_id req) (Some target)
           (Some (Patient.hasInsurance patient)) (Some (Patient._id patient))).
Proof.
  intros validate now newId lookup db req inBody inPath checked target patient
         Hb Hbne Hp Hpne Hchecked Hpatient Hpass Htarget Hactive.
  assert (eligibility_visitId req = Some inBody) as Hid.
  { unfold eligibility_visitId. simpl. rewrite Hb. simpl.
    apply String.eqb_neq in Hbne. now rewrite Hbne. }
  unfold labOrdersRoute.
  rewrite (@checkPaymentEligibility_resolved _ _ db req inBody checked patient Hid Hchecked Hpatient).
  rewrite (@eligibility_condition_false patient checked Hpass).
  assert (active_visitId
            (mkRequest (params_id req) (body req) (user_id req) (Some checked)
               (Some (Patient.hasInsurance patient)) (Some (Patient._id patient)))
          = Some inPath) as Hid'.
  { unfold active_visitId. simpl. rewrite Hp. simpl.
    apply String.eqb_neq in Hpne. now rewrite Hpne. }
  rewrite checkVisitActive_unfold, Hid'.
  apply String.eqb_neq in Hpne. rewrite Hpne, Htarget, Hactive. simpl.
  now rewrite Hp.
Qed.

Lemma lab_order_gates_can_check_another_visit_witness :
  checkPaymentEligibility Fixture.db_two (Sample.labOrder_request None None)
  = Respond (mkResponse 403
      (PaymentRequired
         "Payment required before ordering services. Please complete payment at the reception."
         true (Some "V2600001")))
  /\ exists res db' visit,
       labOrdersRoute Schema.validate Sample.now "o1" (LookupFound 50%float) Fixture.db_two
         Fixture.crossed_request = (res, db')
       /\ httpStatus res = 201
       /\ Visit_findById db' "a1" = Some visit
       /\ Visit.status visit = "Pending Payment"
       /\ map LabOrder.paymentStatus (Visit.labOrders visit) = ["insurance_claimed"]
       /\ map ServiceCharge.insuranceCoverage (Visit.serviceCharges visit) = [40%float].
Proof.
  split; [reflexivity|].
  pose proof (@lab_order_gates_can_check_another_visit Schema.validate Sample.now "o1"
                (LookupFound 50%float) Fixture.db_two Fixture.crossed_request "b2" "a1"
                Fixture.insured_visit Sample.pending_visit Sample.baraka
                eq_refl ltac:(discriminate) eq_refl ltac:(discriminate) eq_refl eq_refl
                ltac:(intros [_ H]; discriminate H) eq_refl eq_refl) as H.
  rewrite H. do 3 eexists. split; [vm_compute; reflexivity|].
  repeat split; reflexivity.
Defined.

(** * How the aggregates move *)







(** * The outstanding-payments report *)

(** A balance that is [<= 0] is not [> 0]. *)
Lemma leb_zero_not_positive (x : Number) :
  PrimFloat.leb x 0%float = true -> PrimFloat.ltb 0%float x = false.
Proof.
  rewrite leb_spec, ltb_spec.
  change (Prim2SF 0%float) with (S754_zero false).
  destruct (Prim2SF x) as [s|s| |s m e]; simpl; try discriminate; try reflexivity;
    destruct s; simpl; try discriminate; reflexivity.
Qed.

(** X7. The report of visits with outstanding payments lists stored visits
    only, and never one that is inactive, nor one whose aggregates are
    consistent and that counts as paid: closing a visit takes its debt off the
    report. *)
Theorem outstanding_report_skips_closed_and_paid :
  forall (db : Db) (v : Visit.t),
    Visit.isActive v = false
    \/ Ledger.consistent v /\ Visit.allServicesPaid v = true ->
    ~ In v (VisitMethods.getVisitsWithOutstandingPayments db).
Proof.
  intros db v H Hin.
  unfold VisitMethods.getVisitsWithOutstandingPayments in Hin.
  apply filter_In in Hin. destruct Hin as [_ Hf].
  apply andb_true_iff in Hf. destruct Hf as [Hpos Hact].
  destruct H as [H | [(_ & _ & _ & _ & _ & Hpaid) Hp]].
  - congruence.
  - apply Hpaid in Hp. apply leb_zero_not_positive in Hp. congruence.
Qed.

Lemma outstanding_report_skips_closed_and_paid_witness :
  let owing := Visit.addServiceCharge Sample.prescription_charge "u2" Fixture.closed_visit in
  Visit.outstandingBalance owing = 30%float
  /\ ~ In owing
       (VisitMethods.getVisitsWithOutstandingPayments
          (mkDb [owing] [Sample.amina; Sample.baraka] [])).
Proof.
  intros owing. split; [reflexivity|].
  apply (@outstanding_report_skips_closed_and_paid
           (mkDb [owing] [Sample.amina; Sample.baraka] []) owing).
  left. reflexivity.
Defined.

(** The report lists exactly the stored visits that are active with a balance
    above 0, and the route counts them. *)
Lemma outstanding_report_members (db : Db) (v : Visit.t) :
  In v (VisitMethods.getVisitsWithOutstandingPayments db)
  <-> In v (visits db)
      /\ PrimFloat.ltb 0%float (Visit.outstandingBalance v) = true
      /\ Visit.isActive v = true.
Proof.
  unfold VisitMethods.getVisitsWithOutstandingPayments.
  rewrite filter_In, andb_true_iff. reflexivity.
Qed.

(** * Ending a visit through the model method *)

(** X8. [endVisit] throws "Visit is not in progress." unless the status is
    [In-Progress], and then nothing is saved.  When it succeeds, the saved
    visit is [completed], carries the user who ended it and the end note (if
    one was given) after the notes it had, and keeps [isActive] and every
    ledger field as they were: the method closes the status, not the visit. *)
Theorem endVisit_completes_in_progress_visits :
  forall (validate : Visit.t -> option string) (now : Date) (endedById : ObjectId)
         (endNotes : option string) (this : Visit.t) (db : Db),
    (Visit.status this <> "In-Progress" ->
     VisitMethods.endVisit validate now endedById endNotes this db
     = inl "Visit is not in progress.")
    /\ (forall ended db',
           VisitMethods.endVisit validate now endedById endNotes this db = inr (ended, db') ->
           Visit.status this = "In-Progress"
           /\ Visit.status ended = "completed"
           /\ Visit.endedBy ended = Some endedById
           /\ Visit.notes ended
              = (if JS.truthy_string endNotes
                 then Some (JS.or_string (Visit.notes this) ""
                            ++ VisitMethods.endNote_label
                            ++ match endNotes with Some s => s | None => "" end)
                 else Visit.notes this)
           /\ Visit.isActive ended = Visit.isActive this
           /\ Visit.serviceCharges ended = Visit.serviceCharges this
           /\ Visit.paymentRecords ended = Visit.paymentRecords this
           /\ Ledger.derived ended = Ledger.derived this).
Proof.
  intros validate now endedById endNotes this db. unfold VisitMethods.endVisit. split.
  - intros H. apply String.eqb_neq in H. now rewrite H.
  - intros ended db'.
    destruct (String.eqb_spec (Visit.status this) "In-Progress") as [E|E]; simpl;
      [|discriminate].
    rewrite save_existing.
    match goal with |- context [validate ?d] => destruct (validate d) end;
      [discriminate|].
    intros H; injection H as <- _.
    split; [exact E|].
    destruct endNotes as [s|]; simpl; [destruct (s =? ""); simpl|];
      repeat split; reflexivity.
Qed.

(** X22. [endVisit] does not free the patient: after it succeeds on an active
    stored visit, the patient still has an active visit on file, which is what
    [POST /api/visits] refuses a new visit for. *)
Lemma endVisit_leaves_patient_busy
    (validate : Visit.t -> option string) (now : Date) (endedById : ObjectId)
    (endNotes : option string) (this old ended : Visit.t) (db db' : Db) :
  Visit_findById db (Visit._id this) = Some old ->
  Visit.isActive this = true ->
  VisitMethods.endVisit validate now endedById endNotes this db = inr (ended, db') ->
  exists active, Visit_findOne_active db' (Visit.patient this) = Some active.
Proof.
  intros Hold Hact Hend.
  assert (Visit._id ended = Visit._id this /\ Visit.patient ended = Visit.patient this
          /\ Visit.isActive ended = true
          /\ save validate now false ended db = inr (ended, db')) as (Hid & Hpat & Hact' & Hs).
  { unfold VisitMethods.endVisit in Hend.
    destruct (negb (Visit.status this =? "In-Progress")); [discriminate|].
    pose proof Hend as Hend'. rewrite save_existing in Hend.
    match type of Hend with context [validate ?d] => destruct (validate d) end;
      [discriminate|].
    injection Hend as <- _.
    destruct endNotes as [s|]; simpl in *; [destruct (s =? ""); simpl in *|];
      repeat split; trivial. }
  assert (Visit_findById db' (Visit._id this) = Some ended) as Hfound.
  { apply save_existing_findById with (validate := validate) (now := now) (old := old)
                                      (db := db); trivial.
    apply find_some in Hold. destruct Hold as [_ Hold]. apply String.eqb_eq in Hold.
    congruence. }
  apply find_some in Hfound. destruct Hfound as [Hin _].
  unfold Visit_findOne_active.
  match goal with |- exists a, find ?f ?l = Some a => destruct (find f l) eqn:E end;
    [eexists; reflexivity|].
  exfalso. apply (find_none _ _ E) in Hin.
  rewrite Hpat, String.eqb_refl, Hact' in Hin. discriminate.
Qed.

(** X9. The earlier Visit model tests the status against ["active"], which is
    not a value of its status enumeration: for every visit with a status the
    schema allows, its [endVisit] throws "Visit is not active." and never
    reaches [save]. *)
Theorem legacy_endVisit_always_throws :
  forall (save : LegacyVisit.t -> string + LegacyVisit.t) (endedById : ObjectId)
         (endNotes : option string) (this : LegacyVisit.t),
    In (LegacyVisit.status this) LegacyVisit.status_enum ->
    LegacyVisit.endVisit save endedById endNotes this = inl "Visit is not active.".
Proof.
  intros save endedById endNotes this Hin. unfold LegacyVisit.endVisit.
  assert ((LegacyVisit.status this =? "active") = false) as ->; [|reflexivity].
  apply String.eqb_neq. intros E. rewrite E in Hin. simpl in Hin.
  repeat (destruct Hin as [Hin|Hin]; [discriminate|]). exact Hin.
Qed.

Lemma legacy_endVisit_always_throws_witness :
  LegacyVisit.endVisit (fun v => inr v) Sample.receptionist (Some "discharged")
    Fixture.legacy_visit = inl "Visit is not active.".
Proof.
  apply legacy_endVisit_always_throws. simpl. right. right. left. reflexivity.
Defined.

(** * The prescription route *)

(** X10. [POST /:id/prescriptions] never records anything: whatever the
    request, the price lookup and the database, the answer is an error (400
    or above) and the database is left as it was, because the handler pushes
    onto [visit.prescriptions], which the schema holds as a single reference. *)
Theorem prescriptionsRoute_never_writes :
  forall (lookup : ServiceLookup) (db : Db) (req : Request MoreBody.Prescription),
    exists res,
      prescriptionsRoute lookup db req = (res, db) /\ 400 <= httpStatus res.
Proof.
  intros lookup db req. unfold prescriptionsRoute.
  destruct (checkPaymentEligibility db req) as [res|req1] eqn:E1.
  - exists res. split; [reflexivity|].
    unfold checkPaymentEligibility in E1.
    destruct (eligibility_visitId req) as [id|]; [|injection E1 as <-; simpl; lia].
    destruct (Visit_findById db id) as [visit|]; [|injection E1 as <-; simpl; lia].
    destruct (Patient_findById db (Visit.patient visit));
      [|injection E1 as <-; simpl; lia].
    destruct (negb _ && _); [injection E1 as <-; simpl; lia | discriminate].
  - rewrite checkVisitActive_unfold.
    destruct (active_visitId req1) as [id|]; [|eexists; split; [reflexivity|simpl; lia]].
    destruct (id =? ""); [eexists; split; [reflexivity|simpl; lia]|].
    destruct (Visit_findById db id) as [visit|];
      [|eexists; split; [reflexivity|simpl; lia]].
    destruct (negb (Visit.isActive visit)); [eexists; split; [reflexivity|simpl; lia]|].
    unfold addPrescription. simpl. eexists; split; [reflexivity|simpl; lia].
Qed.

(** With both gates passed the answer is 400 with the [TypeError] of the push. *)
Example prescription_on_open_visit :
  prescriptionsRoute (LookupFound 100%float) Sample.db_queued Fixture.prescription_request
  = (mkResponse 400 (Error "Cannot read properties of undefined (reading 'push')"),
     Sample.db_queued).
Proof. vm_compute. reflexivity. Qed.

(** * Lab orders with a price *)

(** X11. When the lookup finds a price above 0, the lab-order handler appends
    the lab order at that price and one [lab_test] service charge for one
    unit, covered at 80 percent when the request carries a true insurance flag
    and not at all otherwise, recomputes the aggregates, and saves: 201 with
    the order and the charge information once the save goes through, 400 with
    nothing written otherwise. *)
Theorem priced_lab_order_adds_one_charge :
  forall (validate : Visit.t -> option string) (now : Date) (newId : ObjectId)
         (price : Number) (db : Db) (req : Request Body.LabOrder) (visit : Visit.t),
    req_visit req = Some visit ->
    PrimFloat.ltb 0%float price = true ->
    let insured := JS.truthy_bool (req_hasInsurance req) in
    let order :=
      LabOrder.mk newId (Body.testName (body req)) (Visit.patient visit) (user_id req)
        "Pending" None (Body.notes (body req)) price
        (if insured then "insurance_claimed" else "pending") in
    let charge :=
      ServiceCharge.mk "lab_test" (Body.testName (body req)) (Some newId) price 1%float
        (price * 1)%float insured
        (if insured then (price * 1 * 80 / 100)%float else 0%float)
        (price * 1 - (if insured then (price * 1 * 80 / 100)%float else 0%float))%float
        (if insured then "insurance_claimed" else "pending") 0%float (user_id req)
        (Body.notes (body req)) in
    let visit' :=
      Visit.calculateFinancials
        (Visit.set_serviceCharges (Visit.serviceCharges visit ++ [charge])
           (Visit.set_labOrders (Visit.labOrders visit ++ [order]) visit)) in
    match validate visit' with
    | None =>
        addLabOrder validate now newId (LookupFound price) db req
        = (mkResponse 201
             (SuccessLabOrder (Some order)
                (Some (mkChargeInfo price (req_hasInsurance req)
                         (if insured then (price * 0x1.999999999999ap-3)%float
                          else price)))),
           set_visits
             (map (fun v => if Visit._id v =? Visit._id visit then visit' else v)
                (visits db)) db)
    | Some err =>
        addLabOrder validate now newId (LookupFound price) db req
        = (mkResponse 400 (Error err), db)
    end.
Proof.
  intros validate now newId price db req visit Hreq Hpos insured order charge visit'.
  unfold addLabOrder. rewrite Hreq. cbv zeta. rewrite Hpos.
  cbn [Visit.labOrders Visit.set_labOrders].
  rewrite last_item_pushed. cbn [option_map LabOrder._id].
  match goal with
  | |- context [save validate now false ?x db] => assert (x = visit') as ->
  end.
  { unfold visit', charge, order, insured, Visit.addServiceCharge.
    destruct (req_hasInsurance req) as [[|]|]; reflexivity. }
  rewrite save_existing.
  destruct (validate visit'); [reflexivity|].
  assert (last_item (Visit.labOrders visit') = Some order) as ->.
  { unfold visit'. cbn [Visit.labOrders Visit.calculateFinancials Visit.set_allServicesPaid
      Visit.set_outstandingBalance Visit.set_totalPaid Visit.set_patientResponsibility
      Visit.set_insuranceCoverage Visit.set_totalCharges Visit.set_serviceCharges
      Visit.set_labOrders].
    apply last_item_pushed. }
  reflexivity.
Qed.

Lemma priced_lab_order_adds_one_charge_witness :
  let result :=
    addLabOrder Schema.validate Sample.now "o1" (LookupFound 50%float) Sample.db_queued
      (Sample.labOrder_request (Some Sample.queued_visit) (Some true)) in
  httpStatus (fst result) = 201
  /\ exists visit,
       visits (snd result) = [visit]
       /\ map LabOrder.price (Visit.labOrders visit) = [50%float]
       /\ Ledger.derived visit = (50%float, 40%float, 10%float, 0%float, 10%float, false).
Proof.
  generalize (@priced_lab_order_adds_one_charge Schema.validate Sample.now "o1" 50%float
                Sample.db_queued
                (Sample.labOrder_request (Some Sample.queued_visit) (Some true))
                Sample.queued_visit eq_refl eq_refl).
  vm_compute. intros H.
  split; [reflexivity|].
  eexists. split; [reflexivity|]. split; reflexivity.
Defined.

(** The answer and the ledger compute the patient share differently for an
    insured order, and binary64 arithmetic lets them differ: for a price of 7
    the response says [7 * 0.2] and the charge holds [7 - 7 * 80 / 100]. *)
Example lab_order_response_and_ledger_disagree :
  (7 * 0x1.999999999999ap-3)%float <> (7 * 1 - 7 * 1 * 80 / 100)%float.
Proof.
  intros H.
  assert (PrimFloat.eqb (7 * 0x1.999999999999ap-3)%float (7 * 1 - 7 * 1 * 80 / 100)%float
          = true) as E by (rewrite H; reflexivity).
  vm_compute in E. discriminate E.
Qed.



(** * Gate and payment handlers together *)

Lemma save_new_id (validate : Visit.t -> option string) (now : Date) (doc visit : Visit.t)
    (db db' : Db) :
  save validate now true doc db = inr (visit, db') ->
  Visit._id visit = Visit._id doc
  /\ labTests db' = labTests db
  /\ Ledger.derived visit = Ledger.derived doc
  /\ Visit.serviceCharges visit = Visit.serviceCharges doc
  /\ Visit.paymentRecords visit = Visit.paymentRecords doc
  /\ Visit.startedBy visit = Visit.startedBy doc
  /\ Visit.visitId visit = Visit.visitId (generateVisitId now db true doc).
Proof.
  unfold save. destruct (validate doc); [discriminate|].
  destruct (visitId_taken db (generateVisitId now db true doc)); [discriminate|].
  intros H; injection H as <- <-.
  unfold generateVisitId.
  destruct (true && negb (JS.truthy_string (Visit.visitId doc)));
    repeat split; reflexivity.
Qed.

Lemma findById_pushed (db : Db) (visit : Visit.t) (vs : list Visit.t) :
  Visit_findById db (Visit._id visit) = None ->
  vs = (visits db ++ [visit])%list ->
  find (fun v => Visit._id v =? Visit._id visit) vs = Some visit.
Proof.
  unfold Visit_findById. intros Hnone ->.
  induction (visits db) as [|h l IH]; simpl in *.
  - now rewrite String.eqb_refl.
  - destruct (Visit._id h =? Visit._id visit); [discriminate | now apply IH].
Qed.

Lemma findById_replace_other (doc : Visit.t) (l : list Visit.t) (x : ObjectId) :
  x <> Visit._id doc ->
  find (fun v => Visit._id v =? x)
    (map (fun v => if Visit._id v =? Visit._id doc then doc else v) l)
  = find (fun v => Visit._id v =? x) l.
Proof.
  intros Hx. induction l as [|h l IH]; simpl; [reflexivity|].
  destruct (String.eqb_spec (Visit._id h) (Visit._id doc)) as [E|E].
  - assert ((Visit._id doc =? x) = false) as -> by (apply String.eqb_neq; congruence).
    assert ((Visit._id h =? x) = false) as -> by (apply String.eqb_neq; congruence).
    exact IH.
  - destruct (Visit._id h =? x); [reflexivity | exact IH].
Qed.

Lemma findById_id (db : Db) (id : ObjectId) (visit : Visit.t) :
  Visit_findById db id = Some visit -> Visit._id visit = id /\ In visit (visits db).
Proof.
  unfold Visit_findById. intros H. apply find_some in H. destruct H as [Hin H].
  split; [now apply String.eqb_eq | exact Hin].
Qed.

(** What [recordPayment] leaves alone. *)
Lemma recordPayment_clinical (now : Date) (d : PaymentData.t) (user : ObjectId)
    (v : Visit.t) :
  Ledger.clinical (Visit.recordPayment now d user v) = Ledger.clinical v.
Proof.
  unfold Visit.recordPayment.
  destruct (PaymentData.paymentType d =? "consultation_fee"); reflexivity.
Qed.

(** X13. Confirming the payment is what opens the gate: for an uninsured
    patient's stored visit pending payment, the eligibility gate answers 403
    before [PATCH /:id/payment-status] and, once the confirmation is saved,
    passes the same request on with the queued visit attached. *)
Theorem confirming_payment_opens_the_gate :
  forall (validate : Visit.t -> option string) (now : Date) (db : Db) (id : ObjectId)
         (confirmation : Body.PaymentStatus) (visit : Visit.t) (patient : Patient.t)
         (B : Type) (R : VisitRefs B) (req : Request B),
    Visit_findById db id = Some visit ->
    Patient_findById db (Visit.patient visit) = Some patient ->
    Ledger.uninsured patient ->
    Visit.status visit = "Pending Payment" ->
    JS.truthy_bool (Body.paymentConfirmed confirmation) = true ->
    let confirmed := Visit.set_consultationFeePaid true (Visit.set_status "In Queue" visit) in
    validate confirmed = None ->
    eligibility_visitId req = Some id ->
    checkPaymentEligibility db req
    = Respond (mkResponse 403
        (PaymentRequired
           "Payment required before ordering services. Please complete payment at the reception."
           true (Visit.visitId visit)))
    /\ checkPaymentEligibility (snd (updatePaymentStatus validate now db id confirmation)) req
       = Next (mkRequest (params_id req) (body req) (user_id req) (Some confirmed)
                 (Some false) (Some (Patient._id patient))).
Proof.
  intros validate now db id confirmation visit patient B R req Hv Hp Hun Hst Hc confirmed
         Hok Hid.
  apply hasInsurance_false_iff_uninsured in Hun.
  split.
  - rewrite (@checkPaymentEligibility_resolved _ _ db req id visit patient Hid Hv Hp).
    now rewrite Hun, Hst.
  - assert (save validate now false confirmed db
            = inr (confirmed,
                   set_visits
                     (map (fun v => if Visit._id v =? Visit._id confirmed then confirmed else v)
                        (visits db)) db)) as Hsave.
    { now rewrite save_existing, Hok. }
    assert (snd (updatePaymentStatus validate now db id confirmation)
            = set_visits
                (map (fun v => if Visit._id v =? Visit._id confirmed then confirmed else v)
                   (visits db)) db) as ->.
    { unfold updatePaymentStatus. rewrite Hv, Hst, Hc, String.eqb_refl.
      cbn [andb]. cbv zeta. fold confirmed. now rewrite Hsave. }
    pose proof (@save_existing_findById validate now confirmed visit db _ id Hv eq_refl Hsave)
      as Hfound.
    rewrite (@checkPaymentEligibility_resolved _ _ _ req id confirmed patient Hid Hfound Hp).
    now rewrite Hun.
Qed.

Lemma confirming_payment_opens_the_gate_witness :
  checkPaymentEligibility
    (snd (updatePaymentStatus Schema.validate Sample.now Sample.db_pending "a1"
            (Body.mkPaymentStatus (Some true))))
    (Sample.labOrder_request None None)
  = Next (mkRequest (Some "a1") (Body.mkLabOrder None None "Full Blood Count" None)
            Sample.doctor (Some (Visit.set_consultationFeePaid true Sample.queued_visit))
            (Some false) (Some "p1")).
Proof.
  exact (proj2 (@confirming_payment_opens_the_gate Schema.validate Sample.now
                  Sample.db_pending "a1" (Body.mkPaymentStatus (Some true))
                  Sample.pending_visit Sample.amina Body.LabOrder LabOrder_refs
                  (Sample.labOrder_request None None) eq_refl eq_refl
                  (or_introl eq_refl) eq_refl eq_refl eq_refl eq_refl)).
Defined.

(** X14. A visit created for an uninsured patient from a request that names no
    status is blocked at once: asked about the new visit, the eligibility gate
    answers 403 with that visit's generated id. *)
Theorem new_uninsured_visit_is_blocked :
  forall (validate : Visit.t -> option string) (now : Date) (newId : ObjectId) (db db' : Db)
         (creation : Body.CreateVisit) (user : ObjectId) (patient : Patient.t)
         (visit : Visit.t) (message : string)
         (B : Type) (R : VisitRefs B) (req : Request B),
    createVisit validate now newId db creation user
    = (mkResponse 201 (SuccessVisit visit message), db') ->
    Patient_findById db (Body.patientId creation) = Some patient ->
    Ledger.uninsured patient ->
    JS.truthy_string (Body.status creation) = false ->
    Visit_findById db newId = None ->
    eligibility_visitId req = Some newId ->
    checkPaymentEligibility db' req
    = Respond (mkResponse 403
        (PaymentRequired
           "Payment required before ordering services. Please complete payment at the reception."
           true (Visit.visitId visit))).
Proof.
  intros validate now newId db db' creation user patient visit message B R req
         Hcreate Hp Hun Hstatus Hfresh Hid.
  apply hasInsurance_false_iff_uninsured in Hun.
  unfold createVisit in Hcreate.
  destruct (Visit_findOne_active db (Body.patientId creation)); [discriminate|].
  rewrite Hp in Hcreate. cbv zeta in Hcreate. rewrite Hun in Hcreate.
  match type of Hcreate with
  | context [save validate now true ?d db] =>
      destruct (save validate now true d db) as [err|[saved db'']] eqn:Hsave
  end; [discriminate|].
  injection Hcreate as -> _ ->.
  destruct (save_new _ _ _ _ Hsave) as (Hvs & Hps & Hst & Hpat & _).
  destruct (save_new_id _ _ _ _ Hsave) as (Hid' & _).
  simpl in Hid', Hst, Hpat.
  assert (Visit_findById db' newId = Some visit) as Hfound.
  { unfold Visit_findById. rewrite <- Hid'.
    apply findById_pushed with (db := db); [now rewrite Hid' | exact Hvs]. }
  assert (Patient_findById db' (Visit.patient visit) = Some patient) as Hp'.
  { unfold Patient_findById. rewrite Hps, Hpat. exact Hp. }
  rewrite (@checkPaymentEligibility_resolved _ _ db' req newId visit patient Hid Hfound Hp').
  rewrite Hun, Hst.
  assert (JS.or_string (Body.status creation) "Pending Payment" = "Pending Payment") as ->.
  { apply truthy_string_false in Hstatus. destruct Hstatus as [-> | ->]; reflexivity. }
  reflexivity.
Qed.

Lemma new_uninsured_visit_is_blocked_witness :
  checkPaymentEligibility Sample.db_pending (Sample.labOrder_request None None)
  = Respond (mkResponse 403
      (PaymentRequired
         "Payment required before ordering services. Please complete payment at the reception."
         true (Some "V2600001"))).
Proof.
  exact (@new_uninsured_visit_is_blocked Schema.validate Sample.now "a1" Sample.db0
           Sample.db_pending (Sample.visit_for "p1" None) Sample.receptionist Sample.amina
           Sample.pending_visit
           "Visit created successfully. Payment is required before services can be ordered."
           Body.LabOrder LabOrder_refs (Sample.labOrder_request None None)
           eq_refl eq_refl (or_introl eq_refl) eq_refl eq_refl eq_refl).
Defined.

Lemma eligibility_denied_inv {B : Type} {R : VisitRefs B} (db : Db) (req : Request B)
    (denial : ResBody) :
  checkPaymentEligibility db req = Respond (mkResponse 403 denial) ->
  exists x visit patient,
    eligibility_visitId req = Some x
    /\ Visit_findById db x = Some visit
    /\ Patient_findById db (Visit.patient visit) = Some patient
    /\ negb (Patient.hasInsurance patient) && (Visit.status visit =? "Pending Payment") = true
    /\ denial
       = PaymentRequired
           "Payment required before ordering services. Please complete payment at the reception."
           true (Visit.visitId visit).
Proof.
  unfold checkPaymentEligibility.
  destruct (eligibility_visitId req) as [x|]; [|discriminate].
  destruct (Visit_findById db x) as [visit|] eqn:Hv; [|discriminate].
  destruct (Patient_findById db (Visit.patient visit)) as [patient|] eqn:Hp; [|discriminate].
  destruct (negb _ && _) eqn:E; [|discriminate].
  intros H; injection H as <-. exists x, visit, patient. repeat split; trivial.
Qed.

(** X15. Recording a payment never opens the gate: a request the eligibility
    gate answers 403 is answered the same 403 after any
    [POST /:id/payments], whatever visit the payment went to and whatever its
    type or amount; only the status decides. *)
Theorem recording_a_payment_does_not_open_the_gate :
  forall (validate : Visit.t -> option string) (now : Date) (db : Db) (id : ObjectId)
         (payment : Body.Payment) (user : ObjectId)
         (B : Type) (R : VisitRefs B) (req : Request B) (denial : ResBody),
    checkPaymentEligibility db req = Respond (mkResponse 403 denial) ->
    checkPaymentEligibility (snd (recordPaymentRoute validate now db id payment user)) req
    = Respond (mkResponse 403 denial).
Proof.
  intros validate now db id payment user B R req denial Hdenied.
  unfold recordPaymentRoute.
  destruct (Visit_findById db id) as [visit|] eqn:Hv; [|exact Hdenied].
  destruct (negb _ || _ || _); [exact Hdenied|].
  destruct (Body.amount payment) as [amount|]; [|exact Hdenied].
  destruct (Body.paymentMethod payment) as [method|]; [|exact Hdenied].
  destruct (Body.paymentType payment) as [type|]; [|exact Hdenied].
  rewrite save_existing.
  match goal with |- context [validate ?d] =>
    set (paid := d); destruct (validate paid)
  end; [exact Hdenied|].
  cbn [snd].
  set (db' := set_visits _ db).
  assert (Ledger.clinical paid = Ledger.clinical visit) as Hframe
    by apply recordPayment_clinical.
  assert (Visit._id paid = Visit._id visit /\ Visit.visitId paid = Visit.visitId visit
          /\ Visit.patient paid = Visit.patient visit
          /\ Visit.status paid = Visit.status visit) as (Hi & Hvi & Hpa & Hst).
  { unfold Ledger.clinical in Hframe. injection Hframe. intros. now repeat split. }
  destruct (findById_id _ _ Hv) as [Hvid _].
  destruct (eligibility_denied_inv _ _ Hdenied) as (x & vx & px & Hx & Hvx & Hpx & Hcond & ->).
  assert (forall y, Patient_findById db' y = Patient_findById db y) as Hpatients
    by reflexivity.
  destruct (String.eqb_spec x id) as [E|E].
  - subst x. assert (vx = visit) as -> by congruence.
    assert (Visit_findById db' id = Some paid) as Hfound.
    { unfold Visit_findById, db'. cbn [visits set_visits].
      rewrite <- Hvid, <- Hi. apply findById_replaced with (old := visit).
      rewrite Hi, Hvid. exact Hv. }
    rewrite <- Hpa, <- Hpatients in Hpx.
    rewrite (@checkPaymentEligibility_resolved _ _ db' req id paid px Hx Hfound Hpx).
    now rewrite Hst, Hvi, Hcond.
  - assert (Visit_findById db' x = Some vx) as Hfound.
    { unfold Visit_findById, db'. cbn [visits set_visits].
      rewrite findById_replace_other by congruence. exact Hvx. }
    rewrite <- Hpatients in Hpx.
    rewrite (@checkPaymentEligibility_resolved _ _ db' req x vx px Hx Hfound Hpx).
    now rewrite Hcond.
Qed.

Lemma recording_a_payment_does_not_open_the_gate_witness :
  let paid :=
    snd (recordPaymentRoute Schema.validate Sample.now Sample.db_pending "a1"
           (Sample.cash (Some 30%float) (Some "consultation_fee")) Sample.receptionist) in
  map Visit.consultationFeePaid (visits paid) = [true]
  /\ checkPaymentEligibility paid (Sample.labOrder_request None None)
     = Respond (mkResponse 403
         (PaymentRequired
            "Payment required before ordering services. Please complete payment at the reception."
            true (Some "V2600001"))).
Proof.
  intros paid. split; [vm_compute; reflexivity|].
  exact (@recording_a_payment_does_not_open_the_gate Schema.validate Sample.now
           Sample.db_pending "a1" (Sample.cash (Some 30%float) (Some "consultation_fee"))
           Sample.receptionist Body.LabOrder LabOrder_refs
           (Sample.labOrder_request None None) _ eq_refl).
Defined.

(** * Ending active visits *)

Lemma active_replaced_le (doc : Visit.t) (l : list Visit.t) (p : ObjectId) :
  Visit.isActive doc = false ->
  List.length
    (filter (fun v => (Visit.patient v =? p) && Visit.isActive v)
       (map (fun v => if Visit._id v =? Visit._id doc then doc else v) l))
  <= List.length (filter (fun v => (Visit.patient v =? p) && Visit.isActive v) l).
Proof.
  intros Hdoc. induction l as [|h l IH]; simpl; [lia|].
  destruct (Visit._id h =? Visit._id doc).
  - rewrite Hdoc, andb_false_r.
    destruct ((Visit.patient h =? p) && Visit.isActive h); simpl; lia.
  - destruct ((Visit.patient h =? p) && Visit.isActive h); simpl; lia.
Qed.

Lemma find_none_of_all_false {A : Type} (f : A -> bool) (l : list A) :
  (forall x, In x l -> f x = false) -> find f l = None.
Proof.
  induction l as [|h l IH]; simpl; intros H; [reflexivity|].
  rewrite (H h) by now left. apply IH. intros x Hx. apply H. now right.
Qed.

Lemma short_list_one_member {A : Type} (l : list A) (a b : A) :
  List.length l <= 1 -> In a l -> In b l -> a = b.
Proof.
  destruct l as [|x [|y l]]; simpl; intros Hlen Ha Hb.
  - contradiction.
  - destruct Ha as [<-|[]], Hb as [<-|[]]. reflexivity.
  - lia.
Qed.

(** X16. Ending a stored visit that is active does what the route says when the
    patient has one active visit at most: the answer is 200, the
    one-active-visit invariant still holds, and the patient has no active visit
    left, so a new visit can be created. *)
Theorem ending_an_active_visit_frees_the_patient :
  forall (validate : Visit.t -> option string) (now : Date) (db : Db) (id : ObjectId)
         (visit : Visit.t),
    Ledger.one_active_per_patient db ->
    Visit_findById db id = Some visit ->
    Visit.isActive visit = true ->
    validate (Visit.set_isActive false visit) = None ->
    let result := endVisitRoute validate now db id in
    fst result = mkResponse 200 (SuccessMessage "Visit false ended successfully")
    /\ Ledger.one_active_per_patient (snd result)
    /\ Visit_findOne_active (snd result) (Visit.patient visit) = None.
Proof.
  intros validate now db id visit Inv Hv Hact Hok result.
  destruct (findById_id _ _ Hv) as [Hid Hin].
  assert (result
          = (mkResponse 200 (SuccessMessage "Visit false ended successfully"),
             set_visits
               (map (fun v => if Visit._id v =? id then Visit.set_isActive false visit else v)
                  (visits db)) db)) as ->.
  { unfold result, endVisitRoute. rewrite Hv, Hact. cbn [negb]. cbv zeta.
    rewrite save_existing, Hok. cbn [Visit._id Visit.set_isActive Visit.isActive].
    now rewrite Hid. }
  cbn [fst snd]. split; [reflexivity|]. split.
  - intros p. unfold Ledger.activeVisits. cbn [visits set_visits].
    specialize (Inv p). unfold Ledger.activeVisits in Inv.
    pose proof (@active_replaced_le (Visit.set_isActive false visit) (visits db) p eq_refl)
      as Hle.
    cbn [Visit._id Visit.set_isActive] in Hle. rewrite Hid in Hle. lia.
  - unfold Visit_findOne_active. cbn [visits set_visits].
    apply find_none_of_all_false. intros x Hx.
    apply in_map_iff in Hx. destruct Hx as (w & <- & Hw).
    destruct (String.eqb_spec (Visit._id w) id) as [E|E].
    + cbn [Visit.isActive Visit.set_isActive]. apply andb_false_r.
    + destruct ((Visit.patient w =? Visit.patient visit) && Visit.isActive w) eqn:Ew;
        [|reflexivity].
      exfalso. apply E. rewrite <- Hid. f_equal.
      apply (@short_list_one_member _ (Ledger.activeVisits db (Visit.patient visit)));
        [apply Inv | |]; unfold Ledger.activeVisits; apply filter_In; split; trivial.
      now rewrite String.eqb_refl, Hact.
Qed.

Lemma ending_an_active_visit_frees_the_patient_witness :
  let result := endVisitRoute Schema.validate Sample.now Sample.db_queued "a1" in
  fst result = mkResponse 200 (SuccessMessage "Visit false ended successfully")
  /\ Visit_findOne_active (snd result) "p1" = None.
Proof.
  assert (Ledger.one_active_per_patient Sample.db_queued) as Inv.
  { intros p. unfold Ledger.activeVisits, Sample.db_queued. cbn [visits filter].
    destruct (_ && _); cbn [List.length]; lia. }
  destruct (@ending_an_active_visit_frees_the_patient Schema.validate Sample.now
              Sample.db_queued "a1" Sample.queued_visit Inv eq_refl eq_refl eq_refl)
    as (H1 & _ & H3).
  split; [exact H1 | exact H3].
Defined.

(** * What a creation request writes *)

(** X17. [POST /api/visits] writes nothing unless it answers 201 (its other
    answers are 400 and 404), and then it writes exactly one visit at the end
    of the collection: active, for the requested patient, started by the
    acting user, with an empty ledger and zero aggregates ([allServicesPaid]
    still false), and with the visit id built from the year and the number of
    visits stored before. *)
Theorem createVisit_writes_one_fresh_visit :
  forall (validate : Visit.t -> option string) (now : Date) (newId : ObjectId) (db : Db)
         (creation : Body.CreateVisit) (user : ObjectId),
    let result := createVisit validate now newId db creation user in
    (snd result = db
     /\ (httpStatus (fst result) = 400 \/ httpStatus (fst result) = 404))
    \/ (httpStatus (fst result) = 201
        /\ exists visit,
             visits (snd result) = (visits db ++ [visit])%list
             /\ patients (snd result) = patients db
             /\ labTests (snd result) = labTests db
             /\ Visit._id visit = newId
             /\ Visit.visitId visit
                = Some ("V" ++ JS.slice_last 2 (JS.toString (getFullYear now))
                        ++ JS.padStart 5 "0"%char
                             (JS.toString (List.length (visits db) + 1)))
             /\ Visit.patient visit = Body.patientId creation
             /\ Visit.startedBy visit = user
             /\ Visit.isActive visit = true
             /\ Visit.serviceCharges visit = []
             /\ Visit.paymentRecords visit = []
             /\ Ledger.derived visit
                = (0%float, 0%float, 0%float, 0%float, 0%float, false)).
Proof.
  intros validate now newId db creation user result. subst result.
  unfold createVisit.
  destruct (Visit_findOne_active db (Body.patientId creation));
    [left; split; [reflexivity | now left]|].
  destruct (Patient_findById db (Body.patientId creation)) as [patient|];
    [|left; split; [reflexivity | now right]].
  cbv zeta.
  match goal with
  | |- context [save validate now true ?d db] =>
      destruct (save validate now true d db) as [err|[visit db']] eqn:Hsave
  end; [left; split; [reflexivity | now left]|].
  right. split; [reflexivity|]. exists visit. cbn [fst snd].
  destruct (save_new _ _ _ _ Hsave) as (Hvs & Hps & _ & Hpat & Hact).
  destruct (save_new_id _ _ _ _ Hsave) as (Hid & Hlt & Hder & Hsc & Hpr & Hsb & Hvid).
  repeat split; trivial.
Qed.

(** * Generated visit ids *)

Lemma toString_inj (a b : nat) : JS.toString a = JS.toString b -> a = b.
Proof.
  unfold JS.toString. intros H. apply Unsigned.to_uint_inj.
  assert (Some (Nat.to_uint a) = Some (Nat.to_uint b)) as E.
  { rewrite <- (NilEmpty.usu (Nat.to_uint a)), <- (NilEmpty.usu (Nat.to_uint b)).
    now rewrite H. }
  now injection E.
Qed.

Lemma to_uint_no_leading_zero (n : nat) (u : uint) : n <> 0 -> Nat.to_uint n <> D0 u.
Proof.
  intros Hn E.
  assert (unorm (Nat.to_uint n) = Nat.to_uint n) as Hnorm.
  { rewrite <- Unsigned.to_of. now rewrite Unsigned.of_to. }
  rewrite E in Hnorm. unfold unorm in Hnorm. simpl nzhead in Hnorm.
  destruct (nzhead u) eqn:Hu.
  - injection Hnorm as <-. apply Hn.
    rewrite <- (Unsigned.of_to n), E. reflexivity.
  - apply (nzhead_nonzero u u). congruence.
  - discriminate.
  - discriminate.
  - discriminate.
  - discriminate.
  - discriminate.
  - discriminate.
  - discriminate.
  - discriminate.
  - discriminate.
Qed.

Lemma toString_no_leading_zero (n : nat) (s : string) :
  n <> 0 -> JS.toString n <> String "0" s.
Proof.
  intros Hn. unfold JS.toString.
  pose proof (fun u => @to_uint_no_leading_zero n u Hn) as H.
  destruct (Nat.to_uint n); simpl; try discriminate.
  exfalso. now apply (H u).
Qed.

Lemma append_inv_head (s a b : string) : s ++ a = s ++ b -> a = b.
Proof. induction s as [|c s IH]; simpl; intros H; [exact H | injection H; exact IH]. Qed.

Lemma padded_inj (a b : nat) (s t : string) :
  (forall r, s <> String "0" r) -> (forall r, t <> String "0" r) ->
  JS.repeat_char "0" a ++ s = JS.repeat_char "0" b ++ t -> s = t.
Proof.
  intros Hs Ht. revert b. induction a as [|a IH]; intros [|b]; simpl; intros H.
  - exact H.
  - exfalso. now apply (Hs _ H).
  - exfalso. symmetry in H. now apply (Ht _ H).
  - injection H. apply IH.
Qed.

(** X18. Under one clock, the visit id the pre-save hook generates determines
    the number of visits it was generated against: two new documents without
    an id, saved against collections of different sizes, get different ids
    (padding to five digits never cuts a longer number). *)
Theorem generated_visit_ids_differ_by_count :
  forall (now : Date) (db1 db2 : Db) (v1 v2 : Visit.t),
    JS.truthy_string (Visit.visitId v1) = false ->
    JS.truthy_string (Visit.visitId v2) = false ->
    Visit_countDocuments db1 <> Visit_countDocuments db2 ->
    Visit.visitId (generateVisitId now db1 true v1)
    <> Visit.visitId (generateVisitId now db2 true v2).
Proof.
  intros now db1 db2 v1 v2 H1 H2 Hcount. unfold generateVisitId.
  rewrite H1, H2. cbn [andb negb Visit.visitId Visit.set_visitId].
  intros E. injection E as E.
  apply append_inv_head in E. unfold JS.padStart in E.
  apply padded_inj in E.
  - apply toString_inj in E. lia.
  - intros r. apply toString_no_leading_zero. lia.
  - intros r. apply toString_no_leading_zero. lia.
Qed.

Lemma generated_visit_ids_differ_by_count_witness :
  let doc := new_Visit "c3" Sample.now "p2" Sample.doctor None "cough" "In Queue"
               "consultation" Sample.receptionist in
  Visit.visitId (generateVisitId Sample.now Sample.db0 true doc) = Some "V2600001"
  /\ Visit.visitId (generateVisitId Sample.now Sample.db_pending true doc) = Some "V2600002"
  /\ Visit.visitId (generateVisitId Sample.now Sample.db0 true doc)
     <> Visit.visitId (generateVisitId Sample.now Sample.db_pending true doc).
Proof.
  intros doc. split; [reflexivity|]. split; [reflexivity|].
  apply generated_visit_ids_differ_by_count; [reflexivity | reflexivity | discriminate].
Defined.

(** The hook leaves stored documents, and documents that carry an id, alone. *)
Lemma generateVisitId_keeps_existing_ids (now : Date) (db : Db) (isNew : bool)
    (v : Visit.t) :
  isNew = false \/ JS.truthy_string (Visit.visitId v) = true ->
  generateVisitId now db isNew v = v.
Proof.
  unfold generateVisitId. intros [-> | ->]; [reflexivity|].
  now rewrite andb_false_r.
Qed.

(** * The clinical and diagnosis routes *)

(** X19. [PUT /:id/clinical] on a stored visit, with no prescriptions in the
    body, replaces the diagnoses when the body gives some, appends the lab
    orders of the body, and writes any non-empty status of the body, with no
    test of the current status, of payment or of [isActive]; it adds no
    service charge for the lab orders and leaves every ledger field as it was.
    The answer is 200 with the stored visit once the save goes through, and 400
    with nothing written otherwise; with prescriptions in the body it is 400
    with nothing written. *)
Theorem updateClinical_writes_without_checks :
  forall (validate : Visit.t -> option string) (now : Date) (db : Db) (id : ObjectId)
         (clinical : MoreBody.Clinical) (visit : Visit.t),
    Visit_findById db id = Some visit ->
    let updated :=
      Visit.mk (Visit._id visit) (Visit.visitId visit) (Visit.patient visit)
        (Visit.doctor visit) (Visit.visitDate visit)
        (JS.or_string (MoreBody.status clinical) (Visit.status visit))
        (Visit.type visit) (Visit.reason visit) (Visit.symptoms visit)
        (Visit.startedBy visit) (Visit.endedBy visit) (Visit.room visit)
        (Visit.notes visit) (Visit.duration visit) (Visit.vitalSigns visit)
        (match MoreBody.diagnosis clinical with
         | Some diagnosis => diagnosis
         | None => Visit.diagnosis visit
         end)
        (Visit.labOrders visit
         ++ match MoreBody.labOrders clinical with
            | Some labOrders => labOrders
            | None => []
            end)%list
        (Visit.prescriptions visit) (Visit.serviceCharges visit)
        (Visit.paymentRecords visit) (Visit.totalCharges visit)
        (Visit.insuranceCoverage visit) (Visit.patientResponsibility visit)
        (Visit.totalPaid visit) (Visit.outstandingBalance visit)
        (Visit.consultationFeePaid visit) (Visit.consultationFeeAmount visit)
        (Visit.allServicesPaid visit) (Visit.isActive visit) in
    match MoreBody.prescriptions clinical with
    | Some _ =>
        exists reply,
          updateClinical validate now db id clinical = (reply, db)
          /\ Reply.httpStatus reply = 400
    | None =>
        match validate updated with
        | None =>
            exists db',
              updateClinical validate now db id clinical
              = (Reply.mk 200 (Reply.VisitUpdated updated), db')
              /\ Visit_findById db' id = Some updated
        | Some err =>
            updateClinical validate now db id clinical
            = (Reply.mk 400 (Reply.Failed "Failed to update clinical data" err), db)
        end
    end.
Proof.
  intros validate now db id clinical visit Hv updated.
  unfold updateClinical. rewrite Hv.
  destruct (MoreBody.prescriptions clinical); [eexists; split; reflexivity|].
  cbv zeta.
  match goal with
  | |- context [save validate now false ?d db] => assert (d = updated) as ->
  end.
  { unfold updated, JS.or_string, JS.truthy_string. clear Hv updated. destruct visit.
    destruct (MoreBody.diagnosis clinical), (MoreBody.labOrders clinical),
      (MoreBody.status clinical) as [s|];
      try (destruct (s =? "")); cbn; rewrite ?List.app_nil_r; reflexivity. }
  pose proof (@save_existing_findById validate now updated visit db) as Hfind.
  rewrite save_existing in *.
  destruct (validate updated); [reflexivity|].
  eexists. split; [reflexivity|]. now apply Hfind.
Qed.

Lemma updateClinical_writes_without_checks_witness :
  exists db' visit,
    updateClinical Schema.validate Sample.now Sample.db_pending "a1"
      (MoreBody.mkClinical None
         (Some [LabOrder.mk "o9" "X-Ray" "p1" Sample.doctor "Pending" None None 80%float
                  "pending"])
         None (Some "In Queue"))
    = (Reply.mk 200 (Reply.VisitUpdated visit), db')
    /\ Visit_findById db' "a1" = Some visit
    /\ Visit.status visit = "In Queue"
    /\ map LabOrder.price (Visit.labOrders visit) = [80%float]
    /\ Visit.serviceCharges visit = []
    /\ Visit.consultationFeePaid visit = false.
Proof.
  destruct (@updateClinical_writes_without_checks Schema.validate Sample.now
              Sample.db_pending "a1"
              (MoreBody.mkClinical None
                 (Some [LabOrder.mk "o9" "X-Ray" "p1" Sample.doctor "Pending" None None
                          80%float "pending"])
                 None (Some "In Queue"))
              Sample.pending_visit eq_refl) as (db' & H1 & H2).
  eexists. eexists. split; [exact H1|]. split; [exact H2|].
  repeat split; reflexivity.
Defined.

(** X20. [POST /:id/diagnosis] is not gated: on any stored visit, whatever its
    status, its [isActive] flag and the patient's insurance, it appends one
    diagnosis attributed to the acting user and to the visit's patient and
    touches nothing else; 201 with the diagnosis once the save goes through,
    400 with nothing written otherwise. *)
Theorem addDiagnosis_appends_on_any_visit :
  forall (validate : Visit.t -> option string) (now : Date) (db : Db) (id : ObjectId)
         (given : MoreBody.Diagnosis) (user : ObjectId) (visit : Visit.t),
    Visit_findById db id = Some visit ->
    let diagnosis :=
      Diagnosis.mk (MoreBody.condition given) (Visit.patient visit) user
        (MoreBody.notes given) (MoreBody.icd10Code given) false in
    let updated :=
      VisitMethods.set_diagnosis (Visit.diagnosis visit ++ [diagnosis]) visit in
    Ledger.derived updated = Ledger.derived visit
    /\ Visit.status updated = Visit.status visit
    /\ Visit.isActive updated = Visit.isActive visit
    /\ match validate updated with
       | None =>
           exists db',
             addDiagnosis validate now db id given user
             = (Reply.mk 201 (Reply.DiagnosisAdded (Some diagnosis)), db')
             /\ Visit_findById db' id = Some updated
       | Some err =>
           addDiagnosis validate now db id given user
           = (Reply.mk 400 (Reply.Failure err), db)
       end.
Proof.
  intros validate now db id given user visit Hv diagnosis updated.
  split; [reflexivity|]. split; [reflexivity|]. split; [reflexivity|].
  unfold addDiagnosis. rewrite Hv. cbv zeta. fold diagnosis. fold updated.
  pose proof (@save_existing_findById validate now updated visit db) as Hfind.
  rewrite save_existing in *.
  destruct (validate updated); [reflexivity|].
  eexists. split.
  - unfold updated at 1. cbn [Visit.diagnosis VisitMethods.set_diagnosis].
    now rewrite last_item_pushed.
  - now apply Hfind.
Qed.

Lemma addDiagnosis_appends_on_any_visit_witness :
  exists db' visit,
    addDiagnosis Schema.validate Sample.now Fixture.db_closed "a1"
      (MoreBody.mkDiagnosis "Malaria" (Some "B54") None) Sample.doctor
    = (Reply.mk 201
         (Reply.DiagnosisAdded
            (Some (Diagnosis.mk "Malaria" "p1" Sample.doctor None (Some "B54") false))), db')
    /\ Visit_findById db' "a1" = Some visit
    /\ Visit.isActive visit = false.
Proof.
  destruct (@addDiagnosis_appends_on_any_visit Schema.validate Sample.now Fixture.db_closed
              "a1" (MoreBody.mkDiagnosis "Malaria" (Some "B54") None) Sample.doctor
              Fixture.closed_visit eq_refl) as (_ & _ & _ & db' & H1 & H2).
  eexists. eexists. split; [exact H1|]. split; [exact H2 | reflexivity].
Defined.

(** * Reading the summary back *)

(** X21. The summary a successful [POST /:id/payments] answers with is the one
    [GET /:id/payment-summary] then reads from the database. *)
Theorem payment_summary_reads_back :
  forall (validate : Visit.t -> option string) (now : Date) (db db' : Db) (id : ObjectId)
         (payment : Body.Payment) (user : ObjectId) (message : string)
         (summary : Visit.PaymentSummary),
    recordPaymentRoute validate now db id payment user
    = (mkResponse 201 (SuccessSummary message summary), db') ->
    getPaymentSummaryRoute db' id = Reply.mk 200 (Reply.Summary summary).
Proof.
  intros validate now db db' id payment user message summary.
  unfold recordPaymentRoute.
  destruct (Visit_findById db id) as [visit|] eqn:Hv; [|discriminate].
  destruct (negb _ || _ || _); [discriminate|].
  destruct (Body.amount payment) as [amount|]; [|discriminate].
  destruct (Body.paymentMethod payment) as [method|]; [|discriminate].
  destruct (Body.paymentType payment) as [type|]; [|discriminate].
  match goal with
  | |- context [save validate now false ?d db] =>
      set (paid := d);
      destruct (save validate now false paid db) as [err|[saved db'']] eqn:Hsave
  end; [discriminate|].
  intros H. injection H as _ <- <-.
  assert (saved = paid) as ->.
  { rewrite save_existing in Hsave. destruct (validate paid); [discriminate|].
    now injection Hsave. }
  assert (Visit._id paid = Visit._id visit) as Hid.
  { pose proof (recordPayment_clinical now
                  (PaymentData.mk amount method type (Body.receiptNumber payment)
                     (Body.transactionId payment) (Body.payment_notes payment))
                  user visit) as Hframe.
    fold paid in Hframe. unfold Ledger.clinical in Hframe. now injection Hframe. }
  unfold getPaymentSummaryRoute.
  now rewrite (@save_existing_findById validate now paid visit db db'' id Hv Hid Hsave).
Qed.

Lemma payment_summary_reads_back_witness :
  let result :=
    recordPaymentRoute Schema.validate Sample.now Sample.db_queued "a1"
      (Sample.cash (Some 30%float) (Some "service_payment")) Sample.receptionist in
  exists summary,
    getPaymentSummaryRoute (snd result) "a1" = Reply.mk 200 (Reply.Summary summary)
    /\ Visit.summary_totalPaid summary = 30%float
    /\ Visit.summary_outstandingBalance summary = (-30)%float.
Proof.
  intros result. eexists. split.
  - apply (@payment_summary_reads_back Schema.validate Sample.now Sample.db_queued
             (snd result) "a1" (Sample.cash (Some 30%float) (Some "service_payment"))
             Sample.receptionist "Payment recorded successfully").
    vm_compute. reflexivity.
  - split; reflexivity.
Defined.

Lemma endVisit_leaves_patient_busy_witness :
  exists ended db' active,
    VisitMethods.endVisit Schema.validate Sample.now Sample.receptionist (Some "discharged")
      Fixture.inProgress_visit Fixture.db_inProgress = inr (ended, db')
    /\ Visit.status ended = "completed"
    /\ Visit_findOne_active db' "p1" = Some active.
Proof.
  assert (exists ended db',
             VisitMethods.endVisit Schema.validate Sample.now Sample.receptionist
               (Some "discharged") Fixture.inProgress_visit Fixture.db_inProgress
             = inr (ended, db') /\ Visit.status ended = "completed")
    as (ended & db' & Hend & Hst).
  { eexists. eexists. split; [vm_compute; reflexivity | reflexivity]. }
  destruct (@endVisit_leaves_patient_busy Schema.validate Sample.now Sample.receptionist
              (Some "discharged") Fixture.inProgress_visit Fixture.inProgress_visit ended
              Fixture.db_inProgress db' eq_refl eq_refl Hend) as [active Hactive].
  exists ended, db', active. repeat split; assumption.
Defined.

(** * Lab orders on closed visits, fresh visits, and what stays stored *)

(** X23. A lab order addressed by its path to a stored visit that is inactive
    is refused: when the eligibility gate lets the request through, the
    activity gate answers 400 "Cannot modify an inactive visit" and nothing
    is written. *)
Theorem lab_order_refused_on_inactive_visit :
  forall (validate : Visit.t -> option string) (now : Date) (newId : ObjectId)
         (lookup : ServiceLookup) (db : Db) (req : Request Body.LabOrder)
         (id : ObjectId) (visit : Visit.t) (patient : Patient.t),
    params_id req = Some id -> id <> "" ->
    JS.truthy_string (Body.labOrder_visit (body req)) = false ->
    JS.truthy_string (Body.labOrder_visitId (body req)) = false ->
    Visit_findById db id = Some visit ->
    Patient_findById db (Visit.patient visit) = Some patient ->
    ~ (Ledger.uninsured patient /\ Visit.status visit = "Pending Payment") ->
    Visit.isActive visit = false ->
    labOrdersRoute validate now newId lookup db req
    = (mkResponse 400 (Error "Cannot modify an inactive visit"), db).
Proof.
  intros validate now newId lookup db req id visit patient Hp Hne Hb1 Hb2 Hv Hpat Hpass
         Hinactive.
  pose proof Hne as Hne'. apply String.eqb_neq in Hne'.
  assert (eligibility_visitId req = Some id) as Hid.
  { unfold eligibility_visitId. cbn [body_visit body_visitId LabOrder_refs].
    rewrite Hb1, Hb2, Hp. cbn [JS.truthy_string]. now rewrite Hne'. }
  unfold labOrdersRoute.
  rewrite (@checkPaymentEligibility_resolved _ _ db req id visit patient Hid Hv Hpat).
  rewrite (@eligibility_condition_false patient visit Hpass).
  rewrite checkVisitActive_unfold.
  assert (active_visitId
            (mkRequest (params_id req) (body req) (user_id req) (Some visit)
               (Some (Patient.hasInsurance patient)) (Some (Patient._id patient)))
          = Some id) as ->.
  { unfold active_visitId. cbn [params_id]. rewrite Hp. cbn [JS.truthy_string].
    now rewrite Hne'. }
  now rewrite Hne', Hv, Hinactive.
Qed.

Lemma lab_order_refused_on_inactive_visit_witness :
  labOrdersRoute Schema.validate Sample.now "o1" (LookupFound 50%float) Fixture.db_closed
    (Sample.labOrder_request None None)
  = (mkResponse 400 (Error "Cannot modify an inactive visit"), Fixture.db_closed).
Proof.
  apply (@lab_order_refused_on_inactive_visit Schema.validate Sample.now "o1"
           (LookupFound 50%float) Fixture.db_closed (Sample.labOrder_request None None)
           "a1" Fixture.closed_visit Sample.amina eq_refl ltac:(discriminate) eq_refl
           eq_refl eq_refl eq_refl ltac:(intros [_ H]; discriminate H) eq_refl).
Defined.

(** X24. The visit [POST /api/visits] constructs does not satisfy the
    [allServicesPaid] invariant: its balance is 0 and [allServicesPaid] is
    false, the schema default; the first recompute turns the flag to true. *)
Theorem fresh_visit_is_not_marked_paid :
  forall (_id : ObjectId) (now : Date) (patient doctor : ObjectId) (visitDate : option Date)
         (reason status type : string) (startedBy : ObjectId),
    let visit := new_Visit _id now patient doctor visitDate reason status type startedBy in
    Visit.outstandingBalance visit = 0%float
    /\ Visit.allServicesPaid visit = false
    /\ ~ Ledger.consistent visit
    /\ Visit.allServicesPaid (Visit.calculateFinancials visit) = true
    /\ Ledger.consistent (Visit.calculateFinancials visit).
Proof.
  intros. split; [reflexivity|]. split; [reflexivity|]. split.
  - intros (_ & _ & _ & _ & _ & H). assert (false = true) by (apply H; reflexivity).
    discriminate.
  - split; [reflexivity | apply calculateFinancials_consistent].
Qed.

Lemma keeps_visits_refl (db : Db) : keeps_visits db db.
Proof. exists []. now rewrite List.app_nil_r. Qed.

Lemma save_keeps_visits (validate : Visit.t -> option string) (now : Date) (isNew : bool)
    (doc visit : Visit.t) (db db' : Db) :
  save validate now isNew doc db = inr (visit, db') -> keeps_visits db db'.
Proof.
  unfold save. destruct (validate doc); [discriminate|].
  destruct isNew.
  - destruct (visitId_taken db _); [discriminate|].
    intros H; injection H as _ <-. eexists. cbn [visits set_visits].
    now rewrite map_app.
  - intros H; injection H as _ <-. exists []. cbn [visits set_visits].
    rewrite List.app_nil_r, map_map. apply map_ext_in. intros v _.
    unfold generateVisitId. cbn [andb].
    destruct (String.eqb_spec (Visit._id v) (Visit._id doc)); congruence.
Qed.

Ltac open_handler :=
  cbv zeta;
  repeat match goal with
         | |- context [match ?x with _ => _ end] => destruct x eqn:?
         end;
  subst; cbn [snd];
  first [ apply keeps_visits_refl
        | eapply save_keeps_visits; eassumption
        | exact (keeps_visits_refl _)
        | match goal with
          | H : save _ _ _ _ _ = inr (_, ?d') |- keeps_visits _ ?d' =>
              apply save_keeps_visits in H; exact H
          end ].

(** X25. No handler deletes or re-identifies a visit: after each of the
    routes and the lab-test controller, whatever it answers, every visit that
    was stored is still stored in its place under its [_id], and at most new
    visits follow. *)
Theorem handlers_keep_every_visit :
  forall (validate : Visit.t -> option string) (now : Date) (newId id : ObjectId)
         (lookup : ServiceLookup) (db : Db) (user : ObjectId),
    (forall creation, keeps_visits db (snd (createVisit validate now newId db creation user)))
    /\ keeps_visits db (snd (endVisitRoute validate now db id))
    /\ (forall payment, keeps_visits db (snd (recordPaymentRoute validate now db id payment user)))
    /\ (forall confirmation,
          keeps_visits db (snd (updatePaymentStatus validate now db id confirmation)))
    /\ (forall req, keeps_visits db (snd (labOrdersRoute validate now newId lookup db req)))
    /\ (forall req, keeps_visits db (snd (prescriptionsRoute lookup db req)))
    /\ (forall req, keeps_visits db (snd (createLabTest validate now newId lookup db req)))
    /\ (forall given, keeps_visits db (snd (addDiagnosis validate now db id given user)))
    /\ (forall clinical, keeps_visits db (snd (updateClinical validate now db id clinical))).
Proof.
  intros validate now newId id lookup db user.
  repeat split; intros.
  - unfold createVisit. open_handler.
  - unfold endVisitRoute. open_handler.
  - unfold recordPaymentRoute. open_handler.
  - unfold updatePaymentStatus. open_handler.
  - unfold labOrdersRoute, addLabOrder. open_handler.
  - unfold prescriptionsRoute, addPrescription. open_handler.
  - unfold createLabTest. open_handler.
  - unfold addDiagnosis. open_handler.
  - unfold updateClinical. open_handler.
Qed.
